(** * limited-github-cli-mcp: the tool handlers of [src/index.ts]

    A shallow embedding of the four argument validators, the command
    builders, the command executor and the [CallToolRequestSchema] handler,
    with the part of the JavaScript semantics they rely on ([typeof],
    property access, truthiness, template literals, number printing). *)

From Stdlib Require Import ZArith String Ascii Lia.
From Stdlib Require Import Floats.SpecFloat Numbers.DecimalString.
From stdpp Require Import gmap strings list fin_maps.

Set Warnings "-register-all".

#[local] Arguments String.append !_ _ / : simpl nomatch.

(** ** Text *)

(** The double-quote character, which the templates of the handlers put
    around the text-valued fields. *)
Definition dquote : string := String "034"%char EmptyString.

(** [Occurs p s]: the text [p] appears in [s], character for character. *)
Definition Occurs (p s : string) : Prop :=
  exists before after : string, s = before +:+ p +:+ after.

(** ** Numbers

    A JavaScript number is an IEEE 754 binary64 value.  A [spec_float]
    denotes zero, an infinity, NaN or a finite value [m * 2 ^ e]; the
    functions below go by that value, so that they do not depend on which
    representation of it they are given. *)
Module Number.

Local Open Scope Z_scope.

Definition prec : Z := 53.
Definition emax : Z := 1024.

(** The number [0] of the source text. *)
Definition zero : spec_float := S754_zero false.

(** The number with the integral value [z] (a binary64 value for every
    [z] of magnitude at most [2 ^ 53]). *)
Definition of_Z (z : Z) : spec_float :=
  match z with
  | Z0 => zero
  | Zpos p => S754_finite false p 0
  | Zneg p => S754_finite true p 0
  end.

(** [Number.isInteger] on a number: finite, with an integral value. *)
Definition isInteger (x : spec_float) : bool :=
  match x with
  | S754_zero _ => true
  | S754_finite _ m e => (0 <=? e) || (Z.pos m mod 2 ^ (- e) =? 0)
  | _ => false
  end.

(** [x < y] and [x > y] on numbers, by value (a NaN is in no relation). *)
Definition lt (x y : spec_float) : bool :=
  match x, y with
  | S754_finite s1 m1 e1, S754_finite s2 m2 e2 =>
      let q := Z.min e1 e2 in
      cond_Zopp s1 (Z.pos m1 * 2 ^ (e1 - q))
      <? cond_Zopp s2 (Z.pos m2 * 2 ^ (e2 - q))
  | _, _ => SFltb x y
  end.

Definition gt (x y : spec_float) : bool := lt y x.

(** [x <= y] on numbers, by value. *)
Definition le (x y : spec_float) : bool :=
  match x, y with
  | S754_finite s1 m1 e1, S754_finite s2 m2 e2 =>
      let q := Z.min e1 e2 in
      cond_Zopp s1 (Z.pos m1 * 2 ^ (e1 - q))
      <=? cond_Zopp s2 (Z.pos m2 * 2 ^ (e2 - q))
  | _, _ => SFleb x y
  end.

(** The mathematical value of an integral number. *)
Definition integer_value (x : spec_float) : option Z :=
  match x with
  | S754_zero _ => Some 0
  | S754_finite s m e =>
      if isInteger x then
        let a := if 0 <=? e then Z.pos m * 2 ^ e else Z.pos m / 2 ^ (- e) in
        Some (if s then - a else a)
      else None
  | _ => None
  end.

(** Decimal digits of an integer, with a minus sign when negative. *)
Definition decimal (z : Z) : string := NilZero.string_of_int (Z.to_int z).

Definition cdiv (a b : Z) : Z := - ((- a) / b).

(** [a / b] rounded to the nearest integer, and to the even one of the two
    nearest when it is halfway between them. *)
Definition round_div (a b : Z) : Z :=
  let q := a / b in
  let r := 2 * (a mod b) in
  if r <? b then q
  else if b <? r then q + 1
  else if Z.even q then q else q + 1.

(** [decimal_candidate m e p]: an integer [s] such that [s * 10 ^ p] reads
    back as the binary64 value [m * 2 ^ e] (it lies in the rounding
    interval of that value, whose ends belong to it when the significand is
    even), the one closest to the value, the even one of two that are
    equally close; [None] when there is none.
    All quantities are integers in units of [2 ^ q]. *)
Definition decimal_candidate (m : positive) (e p : Z) : option Z :=
  let ec := fexp prec emax (Z.pos (digits2_pos m) + e) in
  let q := Z.min e ec - 2 in
  let X := Z.pos m * 2 ^ (e - q) in
  let U := 2 ^ (ec - q) in
  let pow2 := (X =? 2 ^ 52 * U) && (-1074 <? ec) in
  let LO := X - (if pow2 then U / 4 else U / 2) in
  let HI := X + U / 2 in
  let closed := Z.even (X / U) in
  let a := 10 ^ Z.max p 0 * 2 ^ Z.max (- q) 0 in
  let b := 2 ^ Z.max q 0 * 10 ^ Z.max (- p) 0 in
  let smin := if closed then cdiv (b * LO) a else (b * LO) / a + 1 in
  let smax := if closed then (b * HI) / a else cdiv (b * HI) a - 1 in
  if smin <=? smax then Some (Z.max smin (Z.min smax (round_div (b * X) a)))
  else None.

(** The largest power of ten [10 ^ p], tried from [p] downwards, that has a
    multiple reading back as the value: its digits are the shortest. *)
Fixpoint shortest_search (fuel : nat) (m : positive) (e p : Z) : Z * Z :=
  match fuel with
  | O => (Z.pos m * 2 ^ e, 0)
  | S fuel' =>
      match decimal_candidate m e p with
      | Some s => (s, p)
      | None => shortest_search fuel' m e (p - 1)
      end
  end.

Definition shortest_digits (m : positive) (e : Z) : Z * Z :=
  let top := (Z.pos (digits2_pos m) + e) * 30103 / 100000 + 1 in
  shortest_search 400 m e top.

Definition zeros (n : Z) : string :=
  String.concat EmptyString (replicate (Z.to_nat n) "0"%string).

(** The layout of the digits [ds] of a value [0.ds * 10 ^ n] (ECMAScript
    Number::toString, radix 10): plain digits up to 21 of them, a leading
    [0.] down to [1e-6], exponent notation elsewhere. *)
Definition format_digits (ds : string) (n : Z) : string :=
  let k := Z.of_nat (String.length ds) in
  if (k <=? n) && (n <=? 21) then ds +:+ zeros (n - k)
  else if (0 <? n) && (n <=? 21) then
    substring 0 (Z.to_nat n) ds +:+ "." +:+
    substring (Z.to_nat n) (Z.to_nat (k - n)) ds
  else if (-6 <? n) && (n <=? 0) then "0." +:+ zeros (- n) +:+ ds
  else
    let x := n - 1 in
    let es := (if 0 <=? x then "+" else "-") +:+ decimal (Z.abs x) in
    if k =? 1 then ds +:+ "e" +:+ es
    else substring 0 1 ds +:+ "." +:+
         substring 1 (Z.to_nat (k - 1)) ds +:+ "e" +:+ es.

(** The text of a positive finite number.  An integral value below
    [2 ^ 53] prints as its own decimal digits (every integer of that range
    is a binary64 value, so no shorter digit string reads back as it). *)
Definition magnitude_toString (m : positive) (e : Z) : string :=
  match integer_value (S754_finite false m e) with
  | Some z =>
      if z <? 2 ^ 53 then decimal z
      else
        let '(s, p) := shortest_digits m e in
        format_digits (decimal s) (p + Z.of_nat (String.length (decimal s)))
  | None =>
      let '(s, p) := shortest_digits m e in
      format_digits (decimal s) (p + Z.of_nat (String.length (decimal s)))
  end.

(** Number::toString, which a template literal applies to a number. *)
Definition toString (x : spec_float) : string :=
  match x with
  | S754_nan => "NaN"
  | S754_zero _ => "0"
  | S754_infinity s => if s then "-Infinity" else "Infinity"
  | S754_finite s m e =>
      (if s then "-" else EmptyString) +:+ magnitude_toString m e
  end.

End Number.

(** ** Values *)

(** The values a request can carry as [arguments] (what [JSON.parse]
    produces), and [undefined]. *)
Inductive JSValue : Type :=
| VUndefined
| VNull
| VBoolean (b : bool)
| VNumber (x : spec_float)
| VString (s : string)
| VObject (fields : gmap string JSValue)
| VArray (elems : list JSValue).

(** The [typeof] operator. *)
Definition typeof (v : JSValue) : string :=
  match v with
  | VUndefined => "undefined"
  | VBoolean _ => "boolean"
  | VNumber _ => "number"
  | VString _ => "string"
  | VNull | VObject _ | VArray _ => "object"
  end.

(** [v === undefined] and [v === null]. *)
Definition is_undefined (v : JSValue) : bool :=
  match v with VUndefined => true | _ => false end.

Definition is_null (v : JSValue) : bool :=
  match v with VNull => true | _ => false end.

(** ToBoolean, the test of [if (v)]. *)
Definition ToBoolean (v : JSValue) : bool :=
  match v with
  | VUndefined | VNull => false
  | VBoolean b => b
  | VNumber (S754_zero _) | VNumber S754_nan => false
  | VNumber _ => true
  | VString s => negb (String.eqb s EmptyString)
  | VObject _ | VArray _ => true
  end.

(** ToString, the conversion of [`${v}`]: an array joins its elements with
    commas, a plain object prints as [[object Object]]. *)
Fixpoint ToString (v : JSValue) : string :=
  match v with
  | VUndefined => "undefined"
  | VNull => "null"
  | VBoolean b => if b then "true" else "false"
  | VNumber x => Number.toString x
  | VString s => s
  | VObject _ => "[object Object]"
  | VArray elems =>
      String.concat ","
        (List.map (fun x => match x with
                            | VUndefined | VNull => EmptyString
                            | _ => ToString x
                            end) elems)
  end.

(** [Number.isInteger(v)]: false on every value that is not a number. *)
Definition Number_isInteger (v : JSValue) : bool :=
  match v with VNumber x => Number.isInteger x | _ => false end.

(** [list.includes(v)] for a list of string literals: [v] is one of them. *)
Definition includes (l : list string) (v : JSValue) : bool :=
  match v with
  | VString s => existsb (String.eqb s) l
  | _ => false
  end.

(** ** Completions *)

(** The error codes of the protocol the handler uses, with their numbers. *)
Inductive ErrorCode : Type := InvalidParams | MethodNotFound | InternalError.

Definition ErrorCode_number (c : ErrorCode) : string :=
  match c with
  | InvalidParams => "-32602"
  | MethodNotFound => "-32601"
  | InternalError => "-32603"
  end.

(** An [McpError] object.  The class belongs to the protocol SDK, not to
    this repository: its constructor stores the code and sets the [message]
    of the error to [MCP error <code>: <message>]. *)
Record McpError : Type := { code : ErrorCode; message : string }.

Definition new_McpError (c : ErrorCode) (msg : string) : McpError :=
  {| code := c;
     message := "MCP error " +:+ ErrorCode_number c +:+ ": " +:+ msg |}.

(** What a [throw] carries: an [McpError]; an [Error] of another class
    (the [TypeError] of a property read on [undefined] or [null], the error
    of a failed child process), with its message; or a value that is not an
    [Error]. *)
Inductive Thrown : Type :=
| ThrowMcpError (e : McpError)
| ThrowError (msg : string)
| ThrowValue (v : JSValue).

(** [error instanceof Error] and [error.message] in a [catch] clause. *)
Definition instanceof_Error (error : Thrown) : bool :=
  match error with
  | ThrowMcpError _ | ThrowError _ => true
  | ThrowValue _ => false
  end.

Definition error_message (error : Thrown) : string :=
  match error with
  | ThrowMcpError e => message e
  | ThrowError msg => msg
  | ThrowValue _ => "undefined"
  end.

(** The result of evaluating an expression: a value, a [throw], or [Stuck]
    for an evaluation this model does not cover (a relational comparison
    whose operand is not a number). *)
Inductive Completion (A : Type) : Type :=
| Normal (a : A)
| Abrupt (t : Thrown)
| Stuck.

Arguments Normal {A} a.
Arguments Abrupt {A} t.
Arguments Stuck {A}.

#[export] Instance Completion_ret : MRet Completion := @Normal.

#[export] Instance Completion_bind : MBind Completion :=
  fun A B (k : A -> Completion B) (c : Completion A) =>
    match c with
    | Normal a => k a
    | Abrupt t => Abrupt t
    | Stuck => Stuck
    end.

(** [a && b] and [a || b] evaluate [b] only when [a] does not decide. *)
Definition and_then (a b : Completion bool) : Completion bool :=
  a ≫= (fun x : bool => if x then b else Normal false).

Definition or_else (a b : Completion bool) : Completion bool :=
  a ≫= (fun x : bool => if x then Normal true else b).

Infix "&&&" := and_then (at level 40, left associativity).
Infix "|||" := or_else (at level 50, left associativity).

(** ** Property access *)

(** The index a key denotes in an array or string of length [n]. *)
Definition index_of_key (k : string) (n : nat) : option nat :=
  List.find (fun i => String.eqb (Number.decimal (Z.of_nat i)) k) (seq 0 n).

(** [v.k].  Reading a property of [undefined] or [null] throws a
    [TypeError]; an object yields its field, or [undefined] when it has
    none of that name; an array or a string has its [length] and its
    indices; a number or a boolean has no property of its own.  (Inherited
    methods are functions, which are not values of this model; the
    handlers read none.) *)
Definition Get (v : JSValue) (k : string) : Completion JSValue :=
  match v with
  | VUndefined | VNull =>
      Abrupt (ThrowError ("Cannot read properties of " +:+ ToString v +:+
                          " (reading '" +:+ k +:+ "')"))
  | VObject fields => Normal (default VUndefined (fields !! k))
  | VArray elems =>
      if String.eqb k "length"
      then Normal (VNumber (Number.of_Z (Z.of_nat (length elems))))
      else match index_of_key k (length elems) with
           | Some i => Normal (default VUndefined (elems !! i))
           | None => Normal VUndefined
           end
  | VString s =>
      if String.eqb k "length"
      then Normal (VNumber (Number.of_Z (Z.of_nat (String.length s))))
      else match index_of_key k (String.length s) with
           | Some i => Normal (VString (substring i 1 s))
           | None => Normal VUndefined
           end
  | VBoolean _ | VNumber _ => Normal VUndefined
  end.

(** [a > b], modelled where both operands are numbers. *)
Definition GreaterThan (a b : JSValue) : Completion bool :=
  match a, b with
  | VNumber x, VNumber y => Normal (Number.gt x y)
  | _, _ => Stuck
  end.

(** ** Validators *)

Definition isValidCreatePrArgs (args : JSValue) : Completion bool :=
  Normal (String.eqb (typeof args) "object") &&&
  Normal (negb (is_null args)) &&&
  (title ← Get args "title";
   Normal (String.eqb (typeof title) "string")) &&&
  ((body ← Get args "body"; Normal (is_undefined body)) |||
   (body ← Get args "body";
    Normal (String.eqb (typeof body) "string"))) &&&
  ((base ← Get args "base"; Normal (is_undefined base)) |||
   (base ← Get args "base";
    Normal (String.eqb (typeof base) "string"))) &&&
  ((head ← Get args "head"; Normal (is_undefined head)) |||
   (head ← Get args "head";
    Normal (String.eqb (typeof head) "string"))) &&&
  ((draft ← Get args "draft"; Normal (is_undefined draft)) |||
   (draft ← Get args "draft";
    Normal (String.eqb (typeof draft) "boolean"))).

Definition isValidListPrArgs (args : JSValue) : Completion bool :=
  Normal (String.eqb (typeof args) "object") &&&
  Normal (negb (is_null args)) &&&
  ((state ← Get args "state"; Normal (is_undefined state)) |||
   (state ← Get args "state";
    Normal (includes ["open"; "closed"; "merged"; "all"] state))) &&&
  ((base ← Get args "base"; Normal (is_undefined base)) |||
   (base ← Get args "base";
    Normal (String.eqb (typeof base) "string"))) &&&
  ((limit ← Get args "limit"; Normal (is_undefined limit)) |||
   (limit ← Get args "limit";
    Normal (String.eqb (typeof limit) "number"))).

Definition isValidViewPrArgs (args : JSValue) : Completion bool :=
  Normal (String.eqb (typeof args) "object") &&&
  Normal (negb (is_null args)) &&&
  (number ← Get args "number";
   Normal (String.eqb (typeof number) "number")) &&&
  (number ← Get args "number"; Normal (Number_isInteger number)) &&&
  (number ← Get args "number";
   GreaterThan number (VNumber Number.zero)).

Definition isValidCommentPrArgs (args : JSValue) : Completion bool :=
  Normal (String.eqb (typeof args) "object") &&&
  Normal (negb (is_null args)) &&&
  (number ← Get args "number";
   Normal (String.eqb (typeof number) "number")) &&&
  (number ← Get args "number"; Normal (Number_isInteger number)) &&&
  (number ← Get args "number";
   GreaterThan number (VNumber Number.zero)) &&&
  (body ← Get args "body";
   Normal (String.eqb (typeof body) "string")).

(** ** Command builders *)

(** The command of each case of the handler, from the destructuring of
    the arguments to the last [command += ...]. *)
Definition create_pr_command (arguments : JSValue) : Completion string :=
  title ← Get arguments "title";
  body ← Get arguments "body";
  base ← Get arguments "base";
  head ← Get arguments "head";
  draft ← Get arguments "draft";
  let command :=
    "pr create --title " +:+ dquote +:+ ToString title +:+ dquote in
  let command :=
    if ToBoolean body
    then command +:+ " --body " +:+ dquote +:+ ToString body +:+ dquote
    else command in
  let command :=
    if ToBoolean base
    then command +:+ " --base " +:+ dquote +:+ ToString base +:+ dquote
    else command in
  let command :=
    if ToBoolean head
    then command +:+ " --head " +:+ dquote +:+ ToString head +:+ dquote
    else command in
  let command :=
    if ToBoolean draft then command +:+ " --draft" else command in
  Normal command.

Definition list_prs_command (arguments : JSValue) : Completion string :=
  state ← Get arguments "state";
  base ← Get arguments "base";
  limit ← Get arguments "limit";
  let command := "pr list"%string in
  let command :=
    if ToBoolean state
    then command +:+ " --state " +:+ ToString state else command in
  let command :=
    if ToBoolean base
    then command +:+ " --base " +:+ ToString base else command in
  let command :=
    if ToBoolean limit
    then command +:+ " --limit " +:+ ToString limit else command in
  Normal command.

Definition view_pr_command (arguments : JSValue) : Completion string :=
  number ← Get arguments "number";
  Normal ("pr view " +:+ ToString number).

Definition comment_pr_command (arguments : JSValue) : Completion string :=
  number ← Get arguments "number";
  body ← Get arguments "body";
  Normal ("pr comment " +:+ ToString number +:+
          " --body " +:+ dquote +:+ ToString body +:+ dquote).

(** ** Replies and effects *)

Record TextContent : Type := { type : string; text : string }.

(** The reply envelope; [isError] is present only on failure. *)
Record ToolReply : Type :=
  { content : list TextContent; isError : option bool }.

(** What a handler does that can be observed from outside: it calls a
    validator on the arguments, it runs a command line. *)
Inductive Event : Type :=
| Validated (tool : string)
| Executed (line : string).

(** A computation of the handler: its completion and the events it caused,
    in order. *)
Record Action (A : Type) : Type :=
  { result : Completion A; trace : list Event }.

Arguments result {A} _.
Arguments trace {A} _.

Definition pure {A : Type} (c : Completion A) : Action A :=
  {| result := c; trace := [] |}.

Definition emit (e : Event) : Action unit :=
  {| result := Normal tt; trace := [e] |}.

Definition throw {A : Type} (error : Thrown) : Action A :=
  pure (Abrupt error).

#[export] Instance Action_ret : MRet Action :=
  fun A (a : A) => pure (Normal a).

#[export] Instance Action_bind : MBind Action :=
  fun A B (k : A -> Action B) (m : Action A) =>
    match result m with
    | Normal a =>
        {| result := result (k a); trace := trace m ++ trace (k a) |}
    | Abrupt t => {| result := Abrupt t; trace := trace m |}
    | Stuck => {| result := Stuck; trace := trace m |}
    end.

(** [try { m } catch (error) { handler }]. *)
Definition try_catch {A : Type} (m : Action A) (handler : Thrown -> Action A)
  : Action A :=
  match result m with
  | Abrupt error =>
      {| result := result (handler error);
         trace := trace m ++ trace (handler error) |}
  | _ => m
  end.

(** The outcome of [execSync]: the captured standard output, or a thrown
    error (a process that exits non-zero or cannot be spawned throws an
    [Error]). *)
Inductive ExecOutcome : Type :=
| Returned (stdout : string)
| Threw (error : Thrown).

Section Server.

(** [execSync(line, {encoding: 'utf8'})], the external process. *)
Variable execSync : string -> ExecOutcome.

Definition executeGhCommand (command : string) : Action string :=
  _ ← emit (Executed ("gh " +:+ command));
  match execSync ("gh " +:+ command) with
  | Returned stdout => mret stdout
  | Threw error =>
      if instanceof_Error error
      then throw (ThrowMcpError
                    (new_McpError InternalError
                       ("GitHub CLI error: " +:+ error_message error)))
      else throw error
  end.

(** The [try]/[catch] that ends each of the four cases. *)
Definition reply_with (command : string) : Action ToolReply :=
  try_catch
    (result ← executeGhCommand command;
     mret {| content := [{| type := "text"; text := result |}];
             isError := None |})
    (fun error =>
       match error with
       | ThrowMcpError e =>
           mret {| content := [{| type := "text"; text := message e |}];
                   isError := Some true |}
       | _ => throw error
       end).

(** The handler of [CallToolRequestSchema], on [request.params.name] and
    [request.params.arguments]. *)
Definition CallToolRequest_handler (name : string) (arguments : JSValue)
  : Action ToolReply :=
  if String.eqb name "create_pr" then
    _ ← emit (Validated "create_pr");
    valid ← pure (isValidCreatePrArgs arguments);
    if negb valid
    then throw (ThrowMcpError
                  (new_McpError InvalidParams "Invalid create_pr arguments"))
    else command ← pure (create_pr_command arguments); reply_with command
  else if String.eqb name "list_prs" then
    _ ← emit (Validated "list_prs");
    valid ← pure (isValidListPrArgs arguments);
    if negb valid
    then throw (ThrowMcpError
                  (new_McpError InvalidParams "Invalid list_prs arguments"))
    else command ← pure (list_prs_command arguments); reply_with command
  else if String.eqb name "view_pr" then
    _ ← emit (Validated "view_pr");
    valid ← pure (isValidViewPrArgs arguments);
    if negb valid
    then throw (ThrowMcpError
                  (new_McpError InvalidParams "Invalid view_pr arguments"))
    else command ← pure (view_pr_command arguments); reply_with command
  else if String.eqb name "comment_pr" then
    _ ← emit (Validated "comment_pr");
    valid ← pure (isValidCommentPrArgs arguments);
    if negb valid
    then throw (ThrowMcpError
                  (new_McpError InvalidParams "Invalid comment_pr arguments"))
    else command ← pure (comment_pr_command arguments); reply_with command
  else
    throw (ThrowMcpError
             (new_McpError MethodNotFound ("Unknown tool: " +:+ name))).

End Server.

(** ** The tool catalogue *)

(** A property of an input schema: its [type], its [description] and, for
    [state], its [enum]. *)
Module Property.
Record t : Type :=
  { type : string; description : string; enum : option (list string) }.
End Property.

(** An input schema; [required] is absent from the schema of [list_prs]. *)
Module InputSchema.
Record t : Type :=
  { type : string;
    properties : list (string * Property.t);
    required : option (list string) }.
End InputSchema.

Module Tool.
Record t : Type :=
  { name : string; description : string; inputSchema : InputSchema.t }.
End Tool.

Definition property (ty description : string) : Property.t :=
  {| Property.type := ty; Property.description := description;
     Property.enum := None |}.

(** The handler of [ListToolsRequestSchema]: the [tools] it returns. *)
Definition ListToolsRequest_handler : list Tool.t :=
  [ {| Tool.name := "create_pr";
       Tool.description := "Create a new pull request";
       Tool.inputSchema :=
         {| InputSchema.type := "object";
            InputSchema.properties :=
              [ ("title", property "string" "Title of the pull request");
                ("body",
                 property "string" "Body/description of the pull request");
                ("base",
                 property "string"
                   "The branch into which you want your code merged");
                ("head",
                 property "string"
                   "The branch that contains commits for your pull request");
                ("draft",
                 property "boolean" "Create the pull request as a draft") ];
            InputSchema.required := Some ["title"] |} |};
    {| Tool.name := "list_prs";
       Tool.description := "List pull requests in the current repository";
       Tool.inputSchema :=
         {| InputSchema.type := "object";
            InputSchema.properties :=
              [ ("state",
                 {| Property.type := "string";
                    Property.description := "Filter by state";
                    Property.enum :=
                      Some ["open"; "closed"; "merged"; "all"] |});
                ("base", property "string" "Filter by base branch");
                ("limit",
                 property "number"
                   "Maximum number of pull requests to fetch") ];
            InputSchema.required := None |} |};
    {| Tool.name := "view_pr";
       Tool.description := "View a specific pull request";
       Tool.inputSchema :=
         {| InputSchema.type := "object";
            InputSchema.properties :=
              [ ("number", property "number" "Pull request number") ];
            InputSchema.required := Some ["number"] |} |};
    {| Tool.name := "comment_pr";
       Tool.description := "Add a comment to a pull request";
       Tool.inputSchema :=
         {| InputSchema.type := "object";
            InputSchema.properties :=
              [ ("number", property "number" "Pull request number");
                ("body", property "string" "Comment text") ];
            InputSchema.required := Some ["number"; "body"] |} |} ].

(** * Vocabulary of the properties *)

(** ** Reading the fields of the arguments *)

(** [typeof args === 'object' && args !== null]. *)
Definition is_object (args : JSValue) : bool :=
  String.eqb (typeof args) "object" && negb (is_null args).

(** The field [k] of the arguments, [undefined] where there is nothing to
    read. *)
Definition member (args : JSValue) (k : string) : JSValue :=
  match Get args k with
  | Normal v => v
  | _ => VUndefined
  end.

Definition has_type (ty : string) (v : JSValue) : bool :=
  String.eqb (typeof v) ty.

(** A field that is absent, and a field that is present with a value of
    another type than [ty]. *)
Definition absent (args : JSValue) (k : string) : Prop :=
  member args k = VUndefined.

Definition wrong_type (ty : string) (args : JSValue) (k : string) : Prop :=
  is_undefined (member args k) = false /\
  has_type ty (member args k) = false.

(** ** The table of the validators

    A non-null object whose required fields have their type and whose
    optional fields are absent or have theirs. *)
Definition required (ty : string) (args : JSValue) (k : string) : bool :=
  has_type ty (member args k).

Definition optional (ty : string) (args : JSValue) (k : string) : bool :=
  is_undefined (member args k) || has_type ty (member args k).

Definition state_enum : list string := ["open"; "closed"; "merged"; "all"].

Definition positive_integer (v : JSValue) : bool :=
  match v with
  | VNumber x => Number.isInteger x && Number.gt x Number.zero
  | _ => false
  end.

Definition create_pr_shape (args : JSValue) : bool :=
  is_object args && required "string" args "title" &&
  optional "string" args "body" && optional "string" args "base" &&
  optional "string" args "head" && optional "boolean" args "draft".

Definition list_prs_shape (args : JSValue) : bool :=
  is_object args &&
  (is_undefined (member args "state") ||
   includes state_enum (member args "state")) &&
  optional "string" args "base" && optional "number" args "limit".

Definition view_pr_shape (args : JSValue) : bool :=
  is_object args && positive_integer (member args "number").

Definition comment_pr_shape (args : JSValue) : bool :=
  is_object args && positive_integer (member args "number") &&
  required "string" args "body".

(** A number whose value is an integer [z] with [0 < z]. *)
Definition is_positive_integer (v : JSValue) : Prop :=
  exists (x : spec_float) (z : Z),
    v = VNumber x /\ Number.integer_value x = Some z /\ (0 < z)%Z.

(** ** The pieces of a command

    A command is its first piece with further pieces appended, one for
    each [command += ...] that is run. *)
Definition append_all (command : string) (pieces : list string) : string :=
  fold_left (fun command piece => command +:+ piece) pieces command.

(** The pieces the [create_pr] case appends after the title, and those the
    [list_prs] case appends after [pr list]. *)
Definition create_pr_flags (body base head draft : JSValue) : list string :=
  (if ToBoolean body
   then [" --body " +:+ dquote +:+ ToString body +:+ dquote] else []) ++
  (if ToBoolean base
   then [" --base " +:+ dquote +:+ ToString base +:+ dquote] else []) ++
  (if ToBoolean head
   then [" --head " +:+ dquote +:+ ToString head +:+ dquote] else []) ++
  (if ToBoolean draft then [" --draft"] else []).

Definition list_prs_flags (state base limit : JSValue) : list string :=
  (if ToBoolean state then [" --state " +:+ ToString state] else []) ++
  (if ToBoolean base then [" --base " +:+ ToString base] else []) ++
  (if ToBoolean limit then [" --limit " +:+ ToString limit] else []).

(** The flag of a piece: its first word after the leading space. *)
Fixpoint first_word (s : string) : string :=
  match s with
  | EmptyString => EmptyString
  | String c rest =>
      if Ascii.eqb c " " then EmptyString else String c (first_word rest)
  end.

Definition flag_of (piece : string) : string :=
  match piece with
  | EmptyString => EmptyString
  | String c rest => if Ascii.eqb c " " then first_word rest else EmptyString
  end.

(** How many of the appended pieces are the flag [flag]. *)
Definition flag_count (flag : string) (pieces : list string) : nat :=
  length (List.filter (fun piece => String.eqb (flag_of piece) flag) pieces).

(** ** Occurrences in a text *)

(** [s] begins with [p]. *)
Fixpoint starts_with (p s : string) : bool :=
  match p, s with
  | EmptyString, _ => true
  | String _ _, EmptyString => false
  | String a p', String b s' => Ascii.eqb a b && starts_with p' s'
  end.

(** A decision procedure for [Occurs]: [s] has [p] at some position. *)
Fixpoint occursb (p s : string) : bool :=
  starts_with p s ||
  match s with
  | EmptyString => false
  | String _ rest => occursb p rest
  end.

(** The number of positions of [s] at which [p] stands. *)
Fixpoint occurrences (p s : string) : nat :=
  (if starts_with p s then 1 else 0) +
  match s with
  | EmptyString => 0
  | String _ rest => occurrences p rest
  end.

(** A text without two dashes in a row: no part of it reads as a flag. *)
Definition dashless (s : string) : bool := negb (occursb "--" s).

(** A text that does not begin with a dash. *)
Definition no_dash_start (s : string) : bool := negb (starts_with "-" s).

(** The text of the field [k] has no two dashes in a row (an absent field
    has no text in the command). *)
Definition field_dashless (args : JSValue) (k : string) : bool :=
  dashless (ToString (member args k)).

(** ** The templates of the builders

    Following the specification (section 4.2): a fixed prefix for the verb,
    then the flags in a fixed order, each with its text ([Some text]) or
    left out ([None]); the bare flag is there or not. *)
Definition quoted_flag (flag : string) (field : option string) : string :=
  match field with
  | Some text => " " +:+ flag +:+ " " +:+ dquote +:+ text +:+ dquote
  | None => EmptyString
  end.

Definition plain_flag (flag : string) (field : option string) : string :=
  match field with
  | Some text => " " +:+ flag +:+ " " +:+ text
  | None => EmptyString
  end.

Definition bare_flag (flag : string) (on : bool) : string :=
  if on then " " +:+ flag else EmptyString.

Definition create_pr_template (title : string) (body base head : option string)
    (draft : bool) : string :=
  "pr create --title " +:+ dquote +:+ title +:+ dquote +:+
  quoted_flag "--body" body +:+ quoted_flag "--base" base +:+
  quoted_flag "--head" head +:+ bare_flag "--draft" draft.

Definition list_prs_template (state base limit : option string) : string :=
  "pr list" +:+ plain_flag "--state" state +:+ plain_flag "--base" base +:+
  plain_flag "--limit" limit.

Definition view_pr_template (number : string) : string :=
  "pr view " +:+ number.

Definition comment_pr_template (number body : string) : string :=
  "pr comment " +:+ number +:+ " --body " +:+ dquote +:+ body +:+ dquote.

(** What a validated field puts after its flag: a string that is not
    empty, as it is; a number other than zero and NaN, as it prints; an
    absent field, an empty string, zero and NaN put no flag at all. *)
Definition flag_text (field : JSValue) : option string :=
  match field with
  | VString EmptyString => None
  | VString text => Some text
  | VNumber (S754_zero _) | VNumber S754_nan => None
  | VNumber x => Some (Number.toString x)
  | _ => None
  end.

(** The bare flag stands for the boolean [true] only. *)
Definition flag_on (field : JSValue) : bool :=
  match field with
  | VBoolean true => true
  | _ => false
  end.

(** ** The tools *)

Definition tools : list string :=
  ["create_pr"; "list_prs"; "view_pr"; "comment_pr"].

Definition tool_validator (name : string)
  : option (JSValue -> Completion bool) :=
  if String.eqb name "create_pr" then Some isValidCreatePrArgs
  else if String.eqb name "list_prs" then Some isValidListPrArgs
  else if String.eqb name "view_pr" then Some isValidViewPrArgs
  else if String.eqb name "comment_pr" then Some isValidCommentPrArgs
  else None.

Definition tool_command (name : string)
  : option (JSValue -> Completion string) :=
  if String.eqb name "create_pr" then Some create_pr_command
  else if String.eqb name "list_prs" then Some list_prs_command
  else if String.eqb name "view_pr" then Some view_pr_command
  else if String.eqb name "comment_pr" then Some comment_pr_command
  else None.

(** A reply with one text block. *)
Definition text_reply (t : string) (flag : option bool) : ToolReply :=
  {| content := [{| type := "text"; text := t |}]; isError := flag |}.

(** The common course of the four cases of the handler, for a tool with
    its validator and its builder. *)
Definition guarded_run (execSync : string -> ExecOutcome) (tool : string)
    (validate : JSValue -> Completion bool)
    (build : JSValue -> Completion string) (arguments : JSValue)
  : Action ToolReply :=
  _ ← emit (Validated tool);
  valid ← pure (validate arguments);
  if negb valid
  then throw (ThrowMcpError
                (new_McpError InvalidParams
                   ("Invalid " +:+ tool +:+ " arguments")))
  else command ← pure (build arguments); reply_with execSync command.

(** ** Sample values *)

(** An object literal and an integer literal. *)
Definition obj (fields : list (string * JSValue)) : JSValue :=
  VObject (list_to_map fields).

Definition num (z : Z) : JSValue := VNumber (Number.of_Z z).

(** Arguments in which every field has a value of a wrong type. *)
Definition ill_typed_args : JSValue :=
  obj [("title", num 1); ("body", num 1); ("base", num 1); ("head", num 1);
       ("draft", VString "yes"); ("state", VString "open");
       ("limit", VString "5"); ("number", VString "5")].

(** A title with a double quote and shell metacharacters in it. *)
Definition hostile_title : string :=
  "x" +:+ dquote +:+ "; echo $(id) #".

(** An external process that fails on every command line, and one that
    prints the command line it was given. *)
Definition failing_exec (line : string) : ExecOutcome :=
  Threw (ThrowError ("Command failed: " +:+ line)).

Definition echo_exec (line : string) : ExecOutcome := Returned line.

(** ** Conformance to an input schema

    JSON Schema, for the keywords the catalogue uses: an instance has the
    [type] of the schema; each [required] name is a field of it; each of
    its fields that the schema declares has the declared [type] and, where
    there is an [enum], is one of its strings.  A field is present when
    reading it gives something else than [undefined]. *)
Definition json_type (v : JSValue) : string :=
  match v with
  | VUndefined => "undefined"
  | VNull => "null"
  | VBoolean _ => "boolean"
  | VNumber _ => "number"
  | VString _ => "string"
  | VObject _ => "object"
  | VArray _ => "array"
  end.

Definition in_enum (enum : option (list string)) (v : JSValue) : bool :=
  match enum with
  | None => true
  | Some l => includes l v
  end.

Definition property_ok (args : JSValue) (entry : string * Property.t)
  : bool :=
  let v := member args (fst entry) in
  is_undefined v ||
  (String.eqb (json_type v) (Property.type (snd entry)) &&
   in_enum (Property.enum (snd entry)) v).

Definition conforms (schema : InputSchema.t) (args : JSValue) : bool :=
  String.eqb (json_type args) (InputSchema.type schema) &&
  forallb (fun k => negb (is_undefined (member args k)))
    (default [] (InputSchema.required schema)) &&
  forallb (property_ok args) (InputSchema.properties schema).

(** The input schema the catalogue publishes for a tool. *)
Definition schema_of (name : string) : option InputSchema.t :=
  Tool.inputSchema <$>
    List.find (fun tool => String.eqb (Tool.name tool) name)
      ListToolsRequest_handler.

(** ** Further vocabulary *)

(** The fields each case of the handler reads. *)
Definition tool_fields (name : string) : list string :=
  if String.eqb name "create_pr"
  then ["title"; "body"; "base"; "head"; "draft"]
  else if String.eqb name "list_prs" then ["state"; "base"; "limit"]
  else if String.eqb name "view_pr" then ["number"]
  else if String.eqb name "comment_pr" then ["number"; "body"]
  else [].

Definition is_digit (c : ascii) : bool :=
  match Ascii.is_nat c with Some _ => true | None => false end.

(** A text made of decimal digits only. *)
Fixpoint all_digits (s : string) : bool :=
  match s with
  | EmptyString => true
  | String c rest => is_digit c && all_digits rest
  end.

(** The method-not-found error for a name. *)
Definition unknown_tool (name : string) : Thrown :=
  ThrowMcpError (new_McpError MethodNotFound ("Unknown tool: " +:+ name)).

(** * Lemmas *)

(** ** Text *)

Lemma append_assoc (a b c : string) : (a +:+ b) +:+ c = a +:+ (b +:+ c).
Proof. induction a as [|x a IH]; simpl; [reflexivity|]. by rewrite IH. Qed.

Lemma append_nil_r (a : string) : a +:+ EmptyString = a.
Proof. induction a as [|x a IH]; simpl; [reflexivity|]. by rewrite IH. Qed.

(** ** Numbers *)

Module NumberFacts.

Local Open Scope Z_scope.

Lemma gt_zero_finite (s : bool) (m : positive) (e : Z) :
  Number.gt (S754_finite s m e) Number.zero = negb s.
Proof. destruct s; reflexivity. Qed.

(** The value [integer_value] returns is the value of the number:
    [z = (-1)^s * m * 2^e], with the power of two moved to the side where
    its exponent is not negative. *)
Lemma integer_value_exact (s : bool) (m : positive) (e z : Z) :
  Number.integer_value (S754_finite s m e) = Some z <->
  z * 2 ^ Z.max (- e) 0 = cond_Zopp s (Z.pos m) * 2 ^ Z.max e 0.
Proof.
  unfold Number.integer_value, Number.isInteger.
  destruct (Z.leb_spec 0 e) as [He|He]; simpl.
  - rewrite Z.max_r, Z.max_l, Z.pow_0_r, Z.mul_1_r by lia.
    split.
    + intros [= <-]. destruct s; simpl; lia.
    + intros ->. f_equal. destruct s; simpl; lia.
  - rewrite Z.max_l, Z.max_r, Z.pow_0_r, Z.mul_1_r by lia.
    assert (Hd : 0 < 2 ^ (- e)) by (apply Z.pow_pos_nonneg; lia).
    destruct (Z.eqb_spec (Z.pos m mod 2 ^ (- e)) 0) as [Hm|Hm].
    + pose proof (Z.div_mod (Z.pos m) (2 ^ (- e)) ltac:(lia)) as Hdm.
      rewrite Hm, Z.add_0_r in Hdm.
      split.
      * intros [= <-]. destruct s; simpl; lia.
      * intros Hz. f_equal. destruct s; simpl in Hz |- *; nia.
    + split; [discriminate|].
      intros Hz. exfalso. apply Hm.
      destruct s; simpl in Hz.
      * replace (Z.pos m) with ((- z) * 2 ^ (- e)) by lia.
        apply Z.mod_mul. lia.
      * rewrite <- Hz. apply Z.mod_mul. lia.
Qed.

(** The test of the validators, [Number.isInteger(n) && n > 0], holds
    exactly of the numbers whose value is a positive integer. *)
Lemma positive_integer_iff (v : JSValue) :
  positive_integer v = true <-> is_positive_integer v.
Proof.
  unfold is_positive_integer. split.
  - destruct v as [| | |x| | |]; try discriminate. unfold positive_integer.
    intros [Hi Hg]%andb_prop.
    destruct x as [s|s| |s m e]; try discriminate.
    rewrite gt_zero_finite in Hg. destruct s; [discriminate|].
    exists (S754_finite false m e).
    eexists. split; [reflexivity|].
    unfold Number.integer_value. rewrite Hi. split; [reflexivity|].
    unfold Number.isInteger in Hi.
    destruct (Z.leb_spec 0 e) as [He|He].
    + apply Z.mul_pos_pos; [lia|]. apply Z.pow_pos_nonneg; lia.
    + simpl in Hi. apply Z.eqb_eq in Hi.
      assert (Hd : 0 < 2 ^ (- e)) by (apply Z.pow_pos_nonneg; lia).
      pose proof (Z.div_mod (Z.pos m) (2 ^ (- e)) ltac:(lia)) as Hdm.
      rewrite Hi, Z.add_0_r in Hdm. nia.
  - intros (x & z & -> & Hz & Hpos). unfold positive_integer.
    destruct x as [s|s| |s m e]; try discriminate.
    + injection Hz as <-. lia.
    + unfold Number.integer_value in Hz.
      destruct (Number.isInteger (S754_finite s m e)) eqn:Hi; [|discriminate].
      rewrite gt_zero_finite. destruct s; [|reflexivity].
      injection Hz as <-. exfalso.
      destruct (Z.leb_spec 0 e) as [He|He].
      * pose proof (Z.pow_nonneg 2 e ltac:(lia)). nia.
      * assert (Hd : 0 < 2 ^ (- e)) by (apply Z.pow_pos_nonneg; lia).
        pose proof (Z.div_pos (Z.pos m) (2 ^ (- e)) ltac:(lia) Hd). lia.
Qed.

(** A number that is at most zero is not greater than zero. *)
Lemma le_zero_not_gt (x : spec_float) :
  Number.le x Number.zero = true -> Number.gt x Number.zero = false.
Proof. destruct x as [s|s| |s m e]; try destruct s; try reflexivity; discriminate. Qed.

Lemma not_integer (x : spec_float) :
  Number.integer_value x = None -> Number.isInteger x = false.
Proof.
  destruct x as [s|s| |s m e]; try reflexivity; try discriminate.
  unfold Number.integer_value.
  destruct (Number.isInteger (S754_finite s m e)); [discriminate|reflexivity].
Qed.

(** An integer below [2 ^ 53] prints as its decimal digits. *)
Lemma toString_integer (x : spec_float) (z : Z) :
  Number.integer_value x = Some z -> 0 < z < 2 ^ 53 ->
  Number.toString x = Number.decimal z.
Proof.
  intros Hz [Hpos Hlt].
  destruct x as [s|s| |s m e]; try discriminate.
  - injection Hz as <-. lia.
  - destruct s.
    + exfalso. apply integer_value_exact in Hz. simpl in Hz.
      assert (0 < 2 ^ Z.max (- e) 0) by (apply Z.pow_pos_nonneg; lia).
      assert (0 < 2 ^ Z.max e 0) by (apply Z.pow_pos_nonneg; lia).
      nia.
    + unfold Number.toString, Number.magnitude_toString.
      rewrite Hz. apply Z.ltb_lt in Hlt. rewrite Hlt. reflexivity.
Qed.

(** Some texts of numbers: [1.5], [0.1] and [0.30000000000000004] by
    their shortest digits, exponent notation from [1e21] on and below
    [1e-6]; [2 ^ -25] and [2 ^ 49 + 0.25] are halfway between two shortest
    digit strings and print the even one. *)
Example toString_examples :
  Number.toString (S754_finite false 3 (-1)) = "1.5"%string /\
  Number.toString (S754_finite false 7205759403792794 (-56)) = "0.1"%string /\
  Number.toString (S754_finite false 5404319552844596 (-54))
  = "0.30000000000000004"%string /\
  Number.toString (S754_finite true 5 (-1)) = "-2.5"%string /\
  Number.toString (Number.of_Z (10 ^ 21)) = "1e+21"%string /\
  Number.toString (Number.of_Z (2 ^ 60)) = "1152921504606847000"%string /\
  Number.toString (S754_finite false 7555786372591432 (-76)) = "1e-7"%string /\
  Number.toString (S754_finite false 1 (-1074)) = "5e-324"%string /\
  Number.toString (S754_finite false 1 (-25))
  = "2.9802322387695312e-8"%string /\
  Number.toString (S754_finite false 2251799813685249 (-2))
  = "562949953421312.2"%string /\
  Number.toString (S754_finite false 7 (-2)) = "1.75"%string /\
  Number.toString (S754_infinity false) = "Infinity"%string.
Proof. vm_compute. repeat split. Qed.

(** On integers below [2 ^ 53] the search of the shortest digits gives the
    digits of the integer as well. *)
Example shortest_digits_examples :
  Number.shortest_digits 123 0 = (123, 0) /\
  Number.shortest_digits 1200 0 = (12, 2) /\
  Number.shortest_digits 5 0 = (5, 0) /\
  Number.format_digits (Number.decimal 12) 4 = "1200"%string.
Proof. vm_compute. repeat split. Qed.

End NumberFacts.

(** ** Reading a field of an object never throws *)

Lemma Get_member (args : JSValue) (k : string) :
  is_object args = true -> Get args k = Normal (member args k).
Proof.
  unfold member.
  destruct args; try discriminate; intros _; simpl.
  - reflexivity.
  - destruct (String.eqb k "length"); [reflexivity|].
    destruct (index_of_key k (length elems)); reflexivity.
Qed.

(** An object from which the field [k] is removed reads as before at the
    other fields. *)
Lemma member_delete_eq (fields : gmap string JSValue) (k : string) :
  member (VObject (delete k fields)) k = VUndefined.
Proof. unfold member, Get. rewrite lookup_delete_eq. reflexivity. Qed.

Lemma member_delete_ne (fields : gmap string JSValue) (k k' : string) :
  k <> k' ->
  member (VObject (delete k fields)) k' = member (VObject fields) k'.
Proof.
  intros Hne. unfold member, Get. rewrite lookup_delete_ne by exact Hne.
  reflexivity.
Qed.

Lemma and_then_Normal (a b : bool) :
  Normal a &&& Normal b = Normal (a && b).
Proof. destruct a; reflexivity. Qed.

Lemma or_else_Normal (a b : bool) :
  Normal a ||| Normal b = Normal (a || b).
Proof. destruct a; reflexivity. Qed.

Lemma bind_Normal {A B : Type} (a : A) (k : A -> Completion B) :
  (Normal a ≫= k) = k a.
Proof. reflexivity. Qed.

(** ** The validators compute the table *)

(** A value that is not an object is refused before any field is read; on
    an object every read returns, and the conjunction is that of the
    table. *)
Ltac validator_eq args :=
  let Hobj := fresh "Hobj" in
  destruct (is_object args) eqn:Hobj;
  [ repeat rewrite (Get_member args _ Hobj);
    repeat first [ rewrite bind_Normal | rewrite or_else_Normal
                 | rewrite and_then_Normal ];
    unfold is_object in Hobj; apply andb_prop in Hobj as [-> ->]
  | destruct args; try discriminate Hobj; reflexivity ].

Lemma isValidCreatePrArgs_eq (args : JSValue) :
  isValidCreatePrArgs args = Normal (create_pr_shape args).
Proof.
  unfold isValidCreatePrArgs, create_pr_shape, required, optional, has_type.
  validator_eq args. reflexivity.
Qed.

Lemma isValidListPrArgs_eq (args : JSValue) :
  isValidListPrArgs args = Normal (list_prs_shape args).
Proof.
  unfold isValidListPrArgs, list_prs_shape, optional, has_type.
  validator_eq args. reflexivity.
Qed.

Lemma isValidViewPrArgs_eq (args : JSValue) :
  isValidViewPrArgs args = Normal (view_pr_shape args).
Proof.
  unfold isValidViewPrArgs, view_pr_shape.
  destruct (is_object args) eqn:Hobj;
    [| destruct args; try discriminate Hobj; reflexivity ].
  repeat rewrite (Get_member args _ Hobj).
  repeat rewrite bind_Normal.
  unfold is_object in Hobj. apply andb_prop in Hobj as [-> ->]. simpl.
  destruct (member args "number") as [| | |x| | |]; try reflexivity.
  simpl. destruct (Number.isInteger x); reflexivity.
Qed.

Lemma isValidCommentPrArgs_eq (args : JSValue) :
  isValidCommentPrArgs args = Normal (comment_pr_shape args).
Proof.
  unfold isValidCommentPrArgs, comment_pr_shape, required, has_type.
  destruct (is_object args) eqn:Hobj;
    [| destruct args; try discriminate Hobj; reflexivity ].
  repeat rewrite (Get_member args _ Hobj).
  repeat rewrite bind_Normal.
  unfold is_object in Hobj. apply andb_prop in Hobj as [-> ->]. simpl.
  destruct (member args "number") as [| | |x| | |]; try reflexivity.
  simpl. destruct (Number.isInteger x); [|reflexivity]. simpl.
  destruct (SFltb Number.zero x); reflexivity.
Qed.

(** ** Occurrences *)

Lemma starts_with_append (p s : string) : starts_with p (p +:+ s) = true.
Proof.
  induction p as [|c p IH]; [reflexivity|].
  simpl. rewrite Ascii.eqb_refl. exact IH.
Qed.

Lemma occursb_starts_with (p s : string) :
  starts_with p s = true -> occursb p s = true.
Proof. intros H. destruct s; cbn [occursb]; rewrite H; reflexivity. Qed.

Lemma Occurs_occursb (p s : string) : Occurs p s -> occursb p s = true.
Proof.
  intros (before & after & ->).
  induction before as [|c before IH].
  - change (EmptyString +:+ p +:+ after) with (p +:+ after).
    apply occursb_starts_with, starts_with_append.
  - change (String c before +:+ p +:+ after)
      with (String c (before +:+ p +:+ after)).
    cbn [occursb]. rewrite IH. apply orb_true_r.
Qed.

Lemma Occurs_here (before p after : string) :
  Occurs p (before +:+ p +:+ after).
Proof. exists before, after. reflexivity. Qed.

Lemma Occurs_append_r (p s t : string) : Occurs p s -> Occurs p (s +:+ t).
Proof.
  intros (before & after & ->). exists before, (after +:+ t).
  rewrite !append_assoc. reflexivity.
Qed.

Lemma Occurs_append_l (p s t : string) : Occurs p t -> Occurs p (s +:+ t).
Proof.
  intros (before & after & ->). exists (s +:+ before), after.
  rewrite !append_assoc. reflexivity.
Qed.

(** ** Appending pieces *)

Lemma append_all_app (command : string) (l1 l2 : list string) :
  append_all command (l1 ++ l2) = append_all (append_all command l1) l2.
Proof. apply fold_left_app. Qed.

Lemma append_all_prefix (a b : string) (pieces : list string) :
  append_all (a +:+ b) pieces = a +:+ append_all b pieces.
Proof.
  revert b. induction pieces as [|x pieces IH]; intros b; [reflexivity|].
  simpl. rewrite append_assoc. apply IH.
Qed.

Lemma Occurs_append_all (p command : string) (pieces : list string) :
  Occurs p command -> Occurs p (append_all command pieces).
Proof.
  revert command. induction pieces as [|x pieces IH]; intros command H.
  - exact H.
  - simpl. apply IH, Occurs_append_r, H.
Qed.

Lemma Occurs_piece (piece command : string) (pieces : list string) :
  In piece pieces -> Occurs piece (append_all command pieces).
Proof.
  intros (l1 & l2 & ->)%in_split.
  rewrite append_all_app. simpl.
  apply Occurs_append_all, Occurs_append_l.
  exists EmptyString, EmptyString. simpl. rewrite append_nil_r. reflexivity.
Qed.

(** ** The builders on validated arguments

    The command of a case is its first piece with the pieces of the truthy
    fields appended. *)

Lemma shape_is_string (v : JSValue) :
  has_type "string" v = true -> exists s, v = VString s.
Proof. destruct v; try discriminate. eauto. Qed.

Lemma shape_is_number (v : JSValue) :
  has_type "number" v = true -> exists x, v = VNumber x.
Proof. destruct v; try discriminate. eauto. Qed.

Lemma create_pr_command_eq (args : JSValue) :
  is_object args = true ->
  create_pr_command args
  = Normal (append_all
              ("pr create --title " +:+ dquote +:+
               ToString (member args "title") +:+ dquote)
              (create_pr_flags (member args "body") (member args "base")
                 (member args "head") (member args "draft"))).
Proof.
  intros Hobj. unfold create_pr_command, create_pr_flags.
  repeat rewrite (Get_member args _ Hobj). repeat rewrite bind_Normal.
  destruct (ToBoolean (member args "body")),
    (ToBoolean (member args "base")), (ToBoolean (member args "head")),
    (ToBoolean (member args "draft")); reflexivity.
Qed.

Lemma list_prs_command_eq (args : JSValue) :
  is_object args = true ->
  list_prs_command args
  = Normal (append_all "pr list"
              (list_prs_flags (member args "state") (member args "base")
                 (member args "limit"))).
Proof.
  intros Hobj. unfold list_prs_command, list_prs_flags.
  repeat rewrite (Get_member args _ Hobj). repeat rewrite bind_Normal.
  destruct (ToBoolean (member args "state")),
    (ToBoolean (member args "base")), (ToBoolean (member args "limit"));
    reflexivity.
Qed.

Lemma view_pr_command_eq (args : JSValue) :
  is_object args = true ->
  view_pr_command args
  = Normal ("pr view " +:+ ToString (member args "number")).
Proof.
  intros Hobj. unfold view_pr_command.
  repeat rewrite (Get_member args _ Hobj). reflexivity.
Qed.

Lemma comment_pr_command_eq (args : JSValue) :
  is_object args = true ->
  comment_pr_command args
  = Normal ("pr comment " +:+ ToString (member args "number") +:+
            " --body " +:+ dquote +:+ ToString (member args "body") +:+
            dquote).
Proof.
  intros Hobj. unfold comment_pr_command.
  repeat rewrite (Get_member args _ Hobj). reflexivity.
Qed.

(** What validation establishes. *)
Lemma create_pr_valid (args : JSValue) :
  isValidCreatePrArgs args = Normal true ->
  is_object args = true /\ required "string" args "title" = true /\
  optional "string" args "body" = true /\
  optional "string" args "base" = true /\
  optional "string" args "head" = true /\
  optional "boolean" args "draft" = true.
Proof.
  rewrite isValidCreatePrArgs_eq. unfold create_pr_shape. intros [= H].
  repeat (apply andb_prop in H as [H ?]).
  repeat split; try assumption; apply andb_true_intro; split; assumption.
Qed.

Lemma list_prs_valid (args : JSValue) :
  isValidListPrArgs args = Normal true ->
  is_object args = true /\
  (is_undefined (member args "state")
   || includes state_enum (member args "state")) = true /\
  optional "string" args "base" = true /\
  optional "number" args "limit" = true.
Proof.
  rewrite isValidListPrArgs_eq. unfold list_prs_shape. intros [= H].
  repeat (apply andb_prop in H as [H ?]).
  repeat split; try assumption; apply andb_true_intro; split; assumption.
Qed.

Lemma view_pr_valid (args : JSValue) :
  isValidViewPrArgs args = Normal true ->
  is_object args = true /\ positive_integer (member args "number") = true.
Proof.
  rewrite isValidViewPrArgs_eq. unfold view_pr_shape. intros [= H].
  apply andb_prop in H. exact H.
Qed.

Lemma comment_pr_valid (args : JSValue) :
  isValidCommentPrArgs args = Normal true ->
  is_object args = true /\ positive_integer (member args "number") = true /\
  required "string" args "body" = true.
Proof.
  rewrite isValidCommentPrArgs_eq. unfold comment_pr_shape. intros [= H].
  repeat (apply andb_prop in H as [H ?]).
  repeat split; try assumption; apply andb_true_intro; split; assumption.
Qed.

(** ** The handler *)

Section HandlerLemmas.

Variable execSync : string -> ExecOutcome.

(** The end of each case: one command line is run; its output is the
    reply, an [Error] it throws becomes a flagged reply, anything else it
    throws is thrown on. *)
Lemma reply_with_eq (command : string) :
  reply_with execSync command
  = {| result :=
         match execSync ("gh " +:+ command) with
         | Returned stdout => Normal (text_reply stdout None)
         | Threw error =>
             if instanceof_Error error
             then Normal
                    (text_reply
                       (message
                          (new_McpError InternalError
                             ("GitHub CLI error: " +:+ error_message error)))
                       (Some true))
             else Abrupt error
         end;
       trace := [Executed ("gh " +:+ command)] |}.
Proof.
  unfold reply_with, executeGhCommand, try_catch, text_reply.
  destruct (execSync ("gh " +:+ command)) as [stdout|error]; [reflexivity|].
  destruct error; reflexivity.
Qed.

(** The handler runs the common course with the validator and the builder
    of the tool. *)
Lemma handler_dispatch (name : string)
    (validate : JSValue -> Completion bool)
    (build : JSValue -> Completion string) (arguments : JSValue) :
  tool_validator name = Some validate ->
  tool_command name = Some build ->
  CallToolRequest_handler execSync name arguments
  = guarded_run execSync name validate build arguments.
Proof.
  unfold tool_validator, tool_command, CallToolRequest_handler.
  destruct (String.eqb_spec name "create_pr") as [->|_];
    [intros [= <-] [= <-]; reflexivity|].
  destruct (String.eqb_spec name "list_prs") as [->|_];
    [intros [= <-] [= <-]; reflexivity|].
  destruct (String.eqb_spec name "view_pr") as [->|_];
    [intros [= <-] [= <-]; reflexivity|].
  destruct (String.eqb_spec name "comment_pr") as [->|_];
    [intros [= <-] [= <-]; reflexivity|].
  discriminate.
Qed.

Lemma guarded_run_invalid (tool : string)
    (validate : JSValue -> Completion bool)
    (build : JSValue -> Completion string) (arguments : JSValue) :
  validate arguments = Normal false ->
  guarded_run execSync tool validate build arguments
  = {| result :=
         Abrupt (ThrowMcpError
                   (new_McpError InvalidParams
                      ("Invalid " +:+ tool +:+ " arguments")));
       trace := [Validated tool] |}.
Proof. intros H. unfold guarded_run. rewrite H. reflexivity. Qed.

Lemma guarded_run_valid (tool : string)
    (validate : JSValue -> Completion bool)
    (build : JSValue -> Completion string) (arguments : JSValue)
    (command : string) :
  validate arguments = Normal true ->
  build arguments = Normal command ->
  guarded_run execSync tool validate build arguments
  = {| result := result (reply_with execSync command);
       trace := Validated tool :: trace (reply_with execSync command) |}.
Proof.
  intros Hv Hb. unfold guarded_run. rewrite Hv, Hb. reflexivity.
Qed.

(** When the command succeeds its output is the reply, without flag. *)
Lemma reply_with_stdout (command stdout : string) :
  execSync ("gh " +:+ command) = Returned stdout ->
  result (reply_with execSync command) = Normal (text_reply stdout None).
Proof. intros H. rewrite reply_with_eq. cbn [result]. rewrite H. reflexivity. Qed.

(** What [execSync] throws that is not an [Error] is thrown on. *)
Lemma reply_with_rethrows (command : string) (v : JSValue) :
  execSync ("gh " +:+ command) = Threw (ThrowValue v) ->
  result (reply_with execSync command) = Abrupt (ThrowValue v).
Proof. intros H. rewrite reply_with_eq. cbn [result]. rewrite H. reflexivity. Qed.

End HandlerLemmas.

(** After validation the builder of each tool returns a command. *)
Lemma validated_builds (name : string)
    (validate : JSValue -> Completion bool)
    (build : JSValue -> Completion string) (arguments : JSValue) :
  tool_validator name = Some validate ->
  tool_command name = Some build ->
  validate arguments = Normal true ->
  exists command, build arguments = Normal command.
Proof.
  unfold tool_validator, tool_command.
  destruct (String.eqb name "create_pr").
  { intros [= <-] [= <-] H. apply create_pr_valid in H as [Hobj _].
    rewrite (create_pr_command_eq _ Hobj). eauto. }
  destruct (String.eqb name "list_prs").
  { intros [= <-] [= <-] H. apply list_prs_valid in H as [Hobj _].
    rewrite (list_prs_command_eq _ Hobj). eauto. }
  destruct (String.eqb name "view_pr").
  { intros [= <-] [= <-] H. apply view_pr_valid in H as [Hobj _].
    rewrite (view_pr_command_eq _ Hobj). eauto. }
  destruct (String.eqb name "comment_pr").
  { intros [= <-] [= <-] H. apply comment_pr_valid in H as [Hobj _].
    rewrite (comment_pr_command_eq _ Hobj). eauto. }
  discriminate.
Qed.

(** ** The flags in the text of the command

    The pieces of a flag are also the places of the command where the flag
    stands, as long as no interpolated text has two dashes in a row
    (the texts are not escaped: one that has could itself read as a
    flag). *)

Lemma starts_with_cons (a b : ascii) (p s : string) :
  starts_with (String a p) (String b s) = Ascii.eqb a b && starts_with p s.
Proof. reflexivity. Qed.

Lemma occurrences_cons (p : string) (c : ascii) (s : string) :
  occurrences p (String c s)
  = (if starts_with p (String c s) then 1 else 0) + occurrences p s.
Proof. reflexivity. Qed.

Section DashFlags.

Variable name : string.

Lemma dashless_cons (a : ascii) (t : string) :
  dashless (String a t) = true ->
  starts_with "--" (String a t) = false /\ dashless t = true.
Proof.
  unfold dashless. cbn [occursb].
  intros H. apply negb_true_iff, orb_false_elim in H as [H1 H2].
  split; [exact H1 | rewrite H2; reflexivity].
Qed.

Lemma no_dash_start_cons (c : ascii) (r : string) :
  no_dash_start (String c r) = true -> Ascii.eqb "-" c = false.
Proof.
  unfold no_dash_start. rewrite starts_with_cons. cbn [starts_with].
  rewrite andb_true_r. apply negb_true_iff.
Qed.

(** Two dashes cannot begin in a dashless text that is followed by
    something else than a dash. *)
Lemma two_dashes_blocked (t rest : string) :
  dashless t = true -> no_dash_start rest = true ->
  starts_with (String "-" (String "-" name)) (t +:+ rest) = false.
Proof.
  intros Ht Hrest.
  assert (Hr : forall q, starts_with (String "-" q) rest = false).
  { intros q. destruct rest as [|c r]; [reflexivity|].
    rewrite starts_with_cons, (no_dash_start_cons c r Hrest). reflexivity. }
  destruct t as [|b t]; [apply Hr|].
  apply dashless_cons in Ht as [Hb Ht].
  change (String b t +:+ rest) with (String b (t +:+ rest)).
  rewrite starts_with_cons. destruct (Ascii.eqb "-" b) eqn:Eb; [|reflexivity].
  rewrite andb_true_l. destruct t as [|c t]; [apply Hr|].
  change (String c t +:+ rest) with (String c (t +:+ rest)).
  rewrite starts_with_cons.
  rewrite !starts_with_cons, Eb, andb_true_l in Hb. cbn [starts_with] in Hb.
  rewrite andb_true_r in Hb. rewrite Hb. reflexivity.
Qed.

Lemma occurrences_skip (t rest : string) :
  dashless t = true -> no_dash_start rest = true ->
  occurrences (String " " (String "-" (String "-" name))) (t +:+ rest) = occurrences (String " " (String "-" (String "-" name))) rest.
Proof.
  intros Ht Hrest. induction t as [|a t IH]; [reflexivity|].
  apply dashless_cons in Ht as [_ Ht].
  change (String a t +:+ rest) with (String a (t +:+ rest)).
  rewrite occurrences_cons, starts_with_cons.
  rewrite (two_dashes_blocked t rest Ht Hrest), andb_false_r.
  exact (IH Ht).
Qed.

Lemma occurrences_dashless (t : string) :
  dashless t = true -> occurrences (String " " (String "-" (String "-" name))) t = 0.
Proof.
  intros Ht. rewrite <- (append_nil_r t).
  rewrite (occurrences_skip t EmptyString Ht eq_refl). reflexivity.
Qed.

(** The same for the flag without the space before it. *)
Lemma flag_skip (t rest : string) :
  dashless t = true -> no_dash_start rest = true ->
  occurrences (String "-" (String "-" name)) (t +:+ rest)
  = occurrences (String "-" (String "-" name)) rest.
Proof.
  intros Ht Hrest. induction t as [|a t IH]; [reflexivity|].
  pose proof (two_dashes_blocked (String a t) rest Ht Hrest) as Hhere.
  apply dashless_cons in Ht as [_ Ht].
  change (String a t +:+ rest) with (String a (t +:+ rest)) in Hhere |- *.
  rewrite occurrences_cons, Hhere. exact (IH Ht).
Qed.

Lemma flag_not_in_dashless (t : string) :
  dashless t = true -> occurrences (String "-" (String "-" name)) t = 0.
Proof.
  intros Ht. rewrite <- (append_nil_r t).
  rewrite (flag_skip t EmptyString Ht eq_refl). reflexivity.
Qed.

End DashFlags.

(** A text in which [p] occurs has a place where [p] stands. *)
Lemma occursb_occurrences (p s : string) :
  occursb p s = true -> occurrences p s <> 0.
Proof.
  induction s as [|c s IH]; cbn [occursb occurrences];
    destruct (starts_with p _); simpl; try discriminate.
  exact IH.
Qed.

Lemma no_occurrence (p s : string) : occurrences p s = 0 -> ~ Occurs p s.
Proof.
  intros H0 H. apply Occurs_occursb, occursb_occurrences in H. exact (H H0).
Qed.

Lemma dashless_space (t : string) :
  dashless t = true -> dashless (String " " t) = true.
Proof.
  unfold dashless. intros H. apply negb_true_iff in H.
  apply negb_true_iff. cbn [occursb]. rewrite H. reflexivity.
Qed.

Lemma occurrences_skip_space (name t rest : string) :
  dashless t = true -> no_dash_start rest = true ->
  occurrences (String " " (String "-" (String "-" name)))
    (String " " (t +:+ rest))
  = occurrences (String " " (String "-" (String "-" name))) rest.
Proof.
  intros Ht Hrest.
  exact (occurrences_skip name (String " " t) rest (dashless_space t Ht) Hrest).
Qed.

Lemma occurrences_space_end (name t : string) :
  dashless t = true ->
  occurrences (String " " (String "-" (String "-" name))) (String " " t) = 0.
Proof. intros Ht. apply occurrences_dashless, dashless_space, Ht. Qed.

(** One step along the text of a command: over an interpolated text at
    once, over a character of the template by evaluation. *)
Ltac step_text :=
  first
    [ rewrite occurrences_skip_space by first [assumption | reflexivity]
    | rewrite occurrences_space_end by assumption
    | rewrite occurrences_skip by first [assumption | reflexivity]
    | rewrite occurrences_cons;
      match goal with
      | |- context [starts_with ?p (String ?c ?s)] =>
          let b := eval cbn in (starts_with p (String c s)) in
          change (starts_with p (String c s)) with b
      end ].

Ltac count_text :=
  unfold dquote; rewrite ?append_assoc; cbn [String.append];
  repeat step_text; reflexivity.

(** The same steps for a flag without the space before it. *)
Ltac step_flag :=
  first
    [ rewrite flag_skip by first [assumption | reflexivity]
    | rewrite flag_not_in_dashless by assumption
    | rewrite occurrences_cons;
      match goal with
      | |- context [starts_with ?p (String ?c ?s)] =>
          let b := eval cbn in (starts_with p (String c s)) in
          change (starts_with p (String c s)) with b
      end ].

Ltac count_flag :=
  unfold dquote; rewrite ?append_assoc; cbn [String.append];
  repeat step_flag; reflexivity.

(** For [create_pr]: the number of places of the command where a flag
    stands is the number of pieces of that flag. *)
Lemma create_pr_flags_in_text (title body base head draft : JSValue) :
  dashless (ToString title) = true -> dashless (ToString body) = true ->
  dashless (ToString base) = true -> dashless (ToString head) = true ->
  let flags := create_pr_flags body base head draft in
  let command :=
    append_all
      ("pr create --title " +:+ dquote +:+ ToString title +:+ dquote) flags in
  occurrences " --body" command = flag_count "--body" flags /\
  occurrences " --base" command = flag_count "--base" flags /\
  occurrences " --head" command = flag_count "--head" flags /\
  occurrences " --draft" command = flag_count "--draft" flags.
Proof.
  intros Ht Hb Hba Hh flags command. subst flags command.
  unfold create_pr_flags.
  destruct (ToBoolean body), (ToBoolean base), (ToBoolean head),
    (ToBoolean draft);
    cbn [app append_all fold_left]; repeat split; count_text.
Qed.

(** For [list_prs], whose values stand unquoted after their flag. *)
Lemma list_prs_flags_in_text (state base limit : JSValue) :
  dashless (ToString state) = true -> dashless (ToString base) = true ->
  dashless (ToString limit) = true ->
  let flags := list_prs_flags state base limit in
  let command := append_all "pr list" flags in
  occurrences " --state" command = flag_count "--state" flags /\
  occurrences " --base" command = flag_count "--base" flags /\
  occurrences " --limit" command = flag_count "--limit" flags.
Proof.
  intros Hs Hb Hl flags command. subst flags command.
  unfold list_prs_flags.
  destruct (ToBoolean state), (ToBoolean base), (ToBoolean limit);
    cbn [app append_all fold_left]; repeat split; count_text.
Qed.
(** * The validators *)

Lemma absent_not_required (ty : string) (args : JSValue) (k : string) :
  String.eqb ty "undefined" = false ->
  absent args k -> required ty args k = false.
Proof.
  unfold absent, required, has_type. intros Hty ->.
  change (String.eqb "undefined" ty = false).
  rewrite String.eqb_sym. exact Hty.
Qed.

Lemma wrong_type_not_optional (ty : string) (args : JSValue) (k : string) :
  wrong_type ty args k -> optional ty args k = false.
Proof. unfold wrong_type, optional. intros [-> ->]. reflexivity. Qed.

Lemma wrong_type_not_required (ty : string) (args : JSValue) (k : string) :
  wrong_type ty args k -> required ty args k = false.
Proof. unfold wrong_type, required. intros [_ ->]. reflexivity. Qed.

(** C8.  Each of the four validators returns a boolean on every input
    value (null, primitives, arrays and objects lacking fields included):
    it never throws.  A required field that is absent or has a value of
    the wrong type, and an optional field that has a value of the wrong
    type, make the result [false]. *)
Theorem validators_never_raise (args : JSValue) :
  ((exists b, isValidCreatePrArgs args = Normal b) /\
   (exists b, isValidListPrArgs args = Normal b) /\
   (exists b, isValidViewPrArgs args = Normal b) /\
   (exists b, isValidCommentPrArgs args = Normal b)) /\
  (absent args "title" \/ wrong_type "string" args "title" ->
   isValidCreatePrArgs args = Normal false) /\
  (wrong_type "string" args "body" \/ wrong_type "string" args "base" \/
   wrong_type "string" args "head" \/ wrong_type "boolean" args "draft" ->
   isValidCreatePrArgs args = Normal false) /\
  (wrong_type "string" args "base" \/ wrong_type "number" args "limit" ->
   isValidListPrArgs args = Normal false) /\
  (absent args "number" \/ wrong_type "number" args "number" ->
   isValidViewPrArgs args = Normal false /\
   isValidCommentPrArgs args = Normal false) /\
  (absent args "body" \/ wrong_type "string" args "body" ->
   isValidCommentPrArgs args = Normal false).
Proof.
  rewrite isValidCreatePrArgs_eq, isValidListPrArgs_eq,
    isValidViewPrArgs_eq, isValidCommentPrArgs_eq.
  split; [repeat split; eexists; reflexivity|].
  unfold create_pr_shape, list_prs_shape, view_pr_shape, comment_pr_shape.
  assert (Hnumber : absent args "number" \/ wrong_type "number" args "number"
                    -> positive_integer (member args "number") = false).
  { intros [H|[_ H]]; [rewrite H; reflexivity|].
    destruct (member args "number"); try reflexivity; discriminate. }
  split; [|split; [|split; [|split]]].
  - intros [H|H]; [apply (absent_not_required "string") in H; [|reflexivity]
                  | apply wrong_type_not_required in H];
      rewrite H, andb_false_r; reflexivity.
  - intros [H|[H|[H|H]]]; apply wrong_type_not_optional in H; rewrite H;
      rewrite ?andb_false_r; reflexivity.
  - intros [H|H]; apply wrong_type_not_optional in H; rewrite H;
      rewrite ?andb_false_r; reflexivity.
  - intros H. rewrite (Hnumber H), andb_false_r. split; reflexivity.
  - intros [H|H]; [apply (absent_not_required "string") in H; [|reflexivity]
                  | apply wrong_type_not_required in H];
      rewrite H, andb_false_r; reflexivity.
Qed.

Lemma validators_never_raise_witness :
  (wrong_type "string" ill_typed_args "title" /\
   wrong_type "string" ill_typed_args "body" /\
   wrong_type "number" ill_typed_args "limit" /\
   wrong_type "number" ill_typed_args "number") /\
  isValidCreatePrArgs ill_typed_args = Normal false /\
  isValidListPrArgs ill_typed_args = Normal false /\
  isValidViewPrArgs ill_typed_args = Normal false /\
  isValidCommentPrArgs ill_typed_args = Normal false /\
  isValidCreatePrArgs VNull = Normal false /\
  isValidCommentPrArgs (VString "text") = Normal false.
Proof.
  destruct (validators_never_raise ill_typed_args)
    as (_ & Htitle & Hopt & Hlist & Hnumber & Hbody).
  assert (Ht : wrong_type "string" ill_typed_args "title")
    by (split; vm_compute; reflexivity).
  assert (Hb : wrong_type "string" ill_typed_args "body")
    by (split; vm_compute; reflexivity).
  assert (Hl : wrong_type "number" ill_typed_args "limit")
    by (split; vm_compute; reflexivity).
  assert (Hn : wrong_type "number" ill_typed_args "number")
    by (split; vm_compute; reflexivity).
  split; [exact (conj Ht (conj Hb (conj Hl Hn)))|].
  split; [exact (Htitle (or_intror Ht))|].
  split; [exact (Hlist (or_intror Hl))|].
  split; [exact (proj1 (Hnumber (or_intror Hn)))|].
  split; [exact (Hbody (or_intror Hb))|].
  split; [exact (Hopt (or_introl Hb))|].
  reflexivity.
Defined.

Lemma includes_enum (v : JSValue) :
  includes state_enum v = true <-> exists s, In s state_enum /\ v = VString s.
Proof.
  unfold includes. split.
  - destruct v as [| | | |t| |]; try discriminate.
    intros H. apply List.existsb_exists in H as (s & Hin & Heq).
    apply String.eqb_eq in Heq. subst t. eauto.
  - intros (s & Hin & ->). apply List.existsb_exists.
    exists s. split; [exact Hin | apply String.eqb_refl].
Qed.

(** C5.  The [list_prs] validator returns [false] whenever the [state]
    field is present and is not one of the strings open, closed, merged
    and all; it returns [true] for each of these four when the other
    fields are absent or well typed. *)
Theorem list_prs_state_enum :
  (forall args : JSValue,
      is_undefined (member args "state") = false ->
      (forall s, In s state_enum -> member args "state" <> VString s) ->
      isValidListPrArgs args = Normal false) /\
  (forall (args : JSValue) (s : string),
      In s state_enum ->
      is_object args = true ->
      member args "state" = VString s ->
      optional "string" args "base" = true ->
      optional "number" args "limit" = true ->
      isValidListPrArgs args = Normal true).
Proof.
  split.
  - intros args Hpresent Hout.
    rewrite isValidListPrArgs_eq. unfold list_prs_shape.
    rewrite Hpresent.
    destruct (includes state_enum (member args "state")) eqn:Hin.
    + apply includes_enum in Hin as (s & Hs & Heq).
      destruct (Hout s Hs Heq).
    + rewrite andb_false_r. reflexivity.
  - intros args s Hs Hobj Hstate Hbase Hlimit.
    rewrite isValidListPrArgs_eq. unfold list_prs_shape.
    rewrite Hobj, Hbase, Hlimit.
    assert (Hin : includes state_enum (member args "state") = true)
      by (apply includes_enum; eauto).
    rewrite Hin, orb_true_r. reflexivity.
Qed.

Lemma list_prs_state_enum_witness :
  isValidListPrArgs (obj [("state", VString "draft")]) = Normal false /\
  isValidListPrArgs (obj [("state", num 1)]) = Normal false /\
  isValidListPrArgs (obj [("state", VString "open")]) = Normal true /\
  isValidListPrArgs (obj [("state", VString "closed"); ("limit", num 5)])
  = Normal true /\
  isValidListPrArgs (obj [("state", VString "merged");
                          ("base", VString "main")]) = Normal true /\
  isValidListPrArgs (obj [("state", VString "all")]) = Normal true.
Proof.
  destruct list_prs_state_enum as [Hout Hin].
  split.
  { apply Hout; [vm_compute; reflexivity|].
    intros s Hs. vm_compute.
    destruct Hs as [<-|[<-|[<-|[<-|[]]]]]; discriminate. }
  split.
  { apply Hout; [vm_compute; reflexivity|].
    intros s Hs. vm_compute. discriminate. }
  split.
  { apply (Hin _ "open"); [simpl; tauto | vm_compute; reflexivity ..]. }
  split.
  { apply (Hin _ "closed"); [simpl; tauto | vm_compute; reflexivity ..]. }
  split.
  { apply (Hin _ "merged"); [simpl; tauto | vm_compute; reflexivity ..]. }
  apply (Hin _ "all"); [simpl; tauto | vm_compute; reflexivity ..].
Defined.

(** C6.  The [view_pr] and [comment_pr] validators return [false]
    whenever [number] is not of numeric type, is not an integer, or is at
    most zero; they return [true] only when [number] is a positive integer
    (and, for [comment_pr], [body] is a string). *)
Theorem number_must_be_positive_integer (args : JSValue) :
  (has_type "number" (member args "number") = false \/
   (exists x, member args "number" = VNumber x /\
              Number.integer_value x = None) \/
   (exists x, member args "number" = VNumber x /\
              Number.le x Number.zero = true) ->
   isValidViewPrArgs args = Normal false /\
   isValidCommentPrArgs args = Normal false) /\
  (isValidViewPrArgs args = Normal true ->
   is_positive_integer (member args "number")) /\
  (isValidCommentPrArgs args = Normal true ->
   is_positive_integer (member args "number") /\
   has_type "string" (member args "body") = true).
Proof.
  rewrite isValidViewPrArgs_eq, isValidCommentPrArgs_eq.
  unfold view_pr_shape, comment_pr_shape, required.
  split; [|split].
  - intros Hbad.
    assert (Hn : positive_integer (member args "number") = false).
    { destruct Hbad as [H|[(x & -> & H)|(x & -> & H)]].
      - destruct (member args "number"); try reflexivity; discriminate.
      - unfold positive_integer.
        rewrite (NumberFacts.not_integer x H). reflexivity.
      - unfold positive_integer.
        rewrite (NumberFacts.le_zero_not_gt x H), andb_false_r. reflexivity. }
    rewrite Hn, andb_false_r. split; reflexivity.
  - intros [= H]. apply andb_prop in H as [_ H].
    apply NumberFacts.positive_integer_iff. exact H.
  - intros [= H]. apply andb_prop in H as [H Hbody].
    apply andb_prop in H as [_ H].
    split; [apply NumberFacts.positive_integer_iff; exact H | exact Hbody].
Qed.

Lemma number_must_be_positive_integer_witness :
  (isValidViewPrArgs (obj [("number", VString "7")]) = Normal false /\
   isValidCommentPrArgs (obj [("number", VString "7")]) = Normal false) /\
  (isValidViewPrArgs (obj [("number", VNumber (S754_finite false 3 (-1)))])
   = Normal false) /\
  (isValidViewPrArgs (obj [("number", num 0)]) = Normal false /\
   isValidCommentPrArgs (obj [("number", num (-4)); ("body", VString "x")])
   = Normal false) /\
  is_positive_integer (member (obj [("number", num 7)]) "number") /\
  is_positive_integer
    (member (obj [("number", num 7); ("body", VString "ok")]) "number").
Proof.
  split.
  { destruct (number_must_be_positive_integer
                (obj [("number", VString "7")])) as (Hbad & _ & _).
    apply Hbad. left. vm_compute. reflexivity. }
  split.
  { destruct (number_must_be_positive_integer
                (obj [("number", VNumber (S754_finite false 3 (-1)))]))
      as (Hbad & _ & _).
    apply Hbad. right; left. eexists. split; vm_compute; reflexivity. }
  split.
  { split.
    - destruct (number_must_be_positive_integer (obj [("number", num 0)]))
        as (Hbad & _ & _).
      apply Hbad. right; right. eexists. split; vm_compute; reflexivity.
    - destruct (number_must_be_positive_integer
                  (obj [("number", num (-4)); ("body", VString "x")]))
        as (Hbad & _ & _).
      apply Hbad. right; right. eexists. split; vm_compute; reflexivity. }
  split.
  { destruct (number_must_be_positive_integer (obj [("number", num 7)]))
      as (_ & Hview & _).
    apply Hview. vm_compute. reflexivity. }
  destruct (number_must_be_positive_integer
              (obj [("number", num 7); ("body", VString "ok")]))
    as (_ & _ & Hcomment).
  apply Hcomment. vm_compute. reflexivity.
Defined.

(** * The handler *)

(** C1.  For each of the four tools: when the arguments pass the validator
    and the external command fails (it exits non-zero or cannot be spawned:
    [execSync] throws an [Error]), the handler returns an ordinary reply
    whose [isError] is [true] and whose single text block contains the text
    of that error, and throws nothing; when the arguments fail the
    validator, the handler throws the invalid-parameters error and returns
    no reply. *)
Theorem execution_failure_is_flagged_reply
    (execSync : string -> ExecOutcome) (name : string)
    (validate : JSValue -> Completion bool)
    (build : JSValue -> Completion string) (arguments : JSValue) :
  tool_validator name = Some validate ->
  tool_command name = Some build ->
  (validate arguments = Normal true ->
   exists command,
     build arguments = Normal command /\
     forall error,
       execSync ("gh " +:+ command) = Threw error ->
       instanceof_Error error = true ->
       exists t,
         result (CallToolRequest_handler execSync name arguments)
         = Normal (text_reply t (Some true)) /\
         Occurs (error_message error) t) /\
  (validate arguments = Normal false ->
   result (CallToolRequest_handler execSync name arguments)
   = Abrupt (ThrowMcpError
               (new_McpError InvalidParams
                  ("Invalid " +:+ name +:+ " arguments")))).
Proof.
  intros Hv Hb. rewrite (handler_dispatch execSync _ _ _ _ Hv Hb).
  split.
  - intros Hvalid.
    destruct (validated_builds _ _ _ _ Hv Hb Hvalid) as [command Hc].
    exists command. split; [exact Hc|].
    intros error He Hi.
    rewrite (guarded_run_valid execSync _ _ _ _ _ Hvalid Hc).
    rewrite reply_with_eq. cbn [result]. rewrite He, Hi.
    eexists. split; [reflexivity|].
    unfold new_McpError. cbn [message].
    exists ("MCP error " +:+ ErrorCode_number InternalError +:+ ": " +:+
            "GitHub CLI error: "), EmptyString.
    rewrite append_nil_r, !append_assoc. reflexivity.
  - intros Hinvalid.
    rewrite (guarded_run_invalid execSync _ _ _ _ Hinvalid). reflexivity.
Qed.

Lemma execution_failure_is_flagged_reply_witness :
  (exists t,
      result (CallToolRequest_handler failing_exec "view_pr"
                (obj [("number", num 7)]))
      = Normal (text_reply t (Some true)) /\
      Occurs "Command failed: gh pr view 7" t) /\
  (result (CallToolRequest_handler failing_exec "view_pr"
             (obj [("number", num 0)]))
   = Abrupt (ThrowMcpError
               {| code := InvalidParams;
                  message := "MCP error -32602: Invalid view_pr arguments" |})).
Proof.
  destruct (execution_failure_is_flagged_reply failing_exec "view_pr"
              isValidViewPrArgs view_pr_command (obj [("number", num 7)])
              eq_refl eq_refl) as [Hvalid _].
  destruct (execution_failure_is_flagged_reply failing_exec "view_pr"
              isValidViewPrArgs view_pr_command (obj [("number", num 0)])
              eq_refl eq_refl) as [_ Hinvalid].
  split.
  - destruct (Hvalid ltac:(vm_compute; reflexivity)) as (command & Hc & Hfail).
    vm_compute in Hc. injection Hc as <-.
    exact (Hfail (ThrowError "Command failed: gh pr view 7")
             eq_refl eq_refl).
  - exact (Hinvalid ltac:(vm_compute; reflexivity)).
Defined.

(** C7.  For a tool name outside the four, whatever the arguments, the
    handler throws the method-not-found error, whose message names the
    tool; it returns no reply, calls no validator and runs no command. *)
Theorem unknown_tool_is_method_not_found
    (execSync : string -> ExecOutcome) (name : string)
    (arguments : JSValue) :
  ~ In name tools ->
  CallToolRequest_handler execSync name arguments
  = {| result :=
         Abrupt (ThrowMcpError
                   (new_McpError MethodNotFound ("Unknown tool: " +:+ name)));
       trace := [] |} /\
  code (new_McpError MethodNotFound ("Unknown tool: " +:+ name))
  = MethodNotFound /\
  Occurs name
    (message (new_McpError MethodNotFound ("Unknown tool: " +:+ name))) /\
  (forall reply,
      result (CallToolRequest_handler execSync name arguments)
      <> Normal reply).
Proof.
  intros Hout.
  assert (Heq : CallToolRequest_handler execSync name arguments
                = {| result :=
                       Abrupt (ThrowMcpError
                                 (new_McpError MethodNotFound
                                    ("Unknown tool: " +:+ name)));
                     trace := [] |}).
  { unfold CallToolRequest_handler, tools in *.
    destruct (String.eqb_spec name "create_pr") as [->|_];
      [exfalso; apply Hout; simpl; tauto|].
    destruct (String.eqb_spec name "list_prs") as [->|_];
      [exfalso; apply Hout; simpl; tauto|].
    destruct (String.eqb_spec name "view_pr") as [->|_];
      [exfalso; apply Hout; simpl; tauto|].
    destruct (String.eqb_spec name "comment_pr") as [->|_];
      [exfalso; apply Hout; simpl; tauto|].
    reflexivity. }
  split; [exact Heq|]. split; [reflexivity|]. split.
  - unfold new_McpError. cbn [message].
    exists ("MCP error " +:+ ErrorCode_number MethodNotFound +:+ ": " +:+
            "Unknown tool: "), EmptyString.
    rewrite append_nil_r, !append_assoc. reflexivity.
  - intros reply. rewrite Heq. discriminate.
Qed.

Lemma unknown_tool_is_method_not_found_witness :
  CallToolRequest_handler echo_exec "merge_pr" (obj [("number", num 7)])
  = {| result :=
         Abrupt (ThrowMcpError
                   {| code := MethodNotFound;
                      message := "MCP error -32601: Unknown tool: merge_pr" |});
       trace := [] |}.
Proof.
  refine (proj1 (unknown_tool_is_method_not_found echo_exec "merge_pr"
                   (obj [("number", num 7)]) _)).
  unfold tools. simpl.
  intros [H|[H|[H|[H|[]]]]]; discriminate H.
Defined.

(** C10.  The object test of the validators admits arrays: the empty array
    passes the [list_prs] validator, every field being absent, and the
    [list_prs] case then runs [pr list]. *)
Theorem empty_array_passes_list_prs (execSync : string -> ExecOutcome) :
  (forall elems, is_object (VArray elems) = true) /\
  isValidListPrArgs (VArray []) = Normal true /\
  list_prs_command (VArray []) = Normal "pr list" /\
  trace (CallToolRequest_handler execSync "list_prs" (VArray []))
  = [Validated "list_prs"; Executed "gh pr list"].
Proof.
  split; [reflexivity|]. split; [reflexivity|]. split; [reflexivity|].
  rewrite (handler_dispatch execSync "list_prs" isValidListPrArgs
             list_prs_command _ eq_refl eq_refl).
  rewrite (guarded_run_valid execSync "list_prs" isValidListPrArgs
             list_prs_command (VArray []) "pr list" eq_refl eq_refl).
  rewrite reply_with_eq. reflexivity.
Qed.

(** * The command builders *)

(** The number of pieces of each flag among those a case appends. *)
Lemma create_pr_flag_counts (body base head draft : JSValue) :
  flag_count "--body" (create_pr_flags body base head draft)
  = (if ToBoolean body then 1 else 0) /\
  flag_count "--base" (create_pr_flags body base head draft)
  = (if ToBoolean base then 1 else 0) /\
  flag_count "--head" (create_pr_flags body base head draft)
  = (if ToBoolean head then 1 else 0) /\
  flag_count "--draft" (create_pr_flags body base head draft)
  = (if ToBoolean draft then 1 else 0).
Proof.
  unfold create_pr_flags.
  destruct (ToBoolean body), (ToBoolean base), (ToBoolean head),
    (ToBoolean draft); repeat split; reflexivity.
Qed.

Lemma list_prs_flag_counts (state base limit : JSValue) :
  flag_count "--state" (list_prs_flags state base limit)
  = (if ToBoolean state then 1 else 0) /\
  flag_count "--base" (list_prs_flags state base limit)
  = (if ToBoolean base then 1 else 0) /\
  flag_count "--limit" (list_prs_flags state base limit)
  = (if ToBoolean limit then 1 else 0).
Proof.
  unfold list_prs_flags.
  destruct (ToBoolean state), (ToBoolean base), (ToBoolean limit);
    repeat split; reflexivity.
Qed.

(** ** The commands and the templates *)

(** The pieces a case appends, put together, are the flags of the template
    for the texts of the fields. *)
Lemma create_pr_flags_template (title : string)
    (body base head draft : JSValue) :
  is_undefined body || has_type "string" body = true ->
  is_undefined base || has_type "string" base = true ->
  is_undefined head || has_type "string" head = true ->
  is_undefined draft || has_type "boolean" draft = true ->
  append_all ("pr create --title " +:+ dquote +:+ title +:+ dquote)
    (create_pr_flags body base head draft)
  = create_pr_template title (flag_text body) (flag_text base)
      (flag_text head) (flag_on draft).
Proof.
  intros Hbody Hbase Hhead Hdraft.
  unfold create_pr_flags, create_pr_template.
  destruct body as [| | | |[|? body]| |]; try discriminate Hbody;
    destruct base as [| | | |[|? base]| |]; try discriminate Hbase;
    destruct head as [| | | |[|? head]| |]; try discriminate Hhead;
    destruct draft as [| |[|]| | | |]; try discriminate Hdraft;
    cbn [ToBoolean ToString String.eqb negb flag_text flag_on quoted_flag
           bare_flag app append_all fold_left];
    rewrite ?append_assoc, ?append_nil_r; reflexivity.
Qed.

Lemma list_prs_flags_template (state base limit : JSValue) :
  is_undefined state || includes state_enum state = true ->
  is_undefined base || has_type "string" base = true ->
  is_undefined limit || has_type "number" limit = true ->
  append_all "pr list" (list_prs_flags state base limit)
  = list_prs_template (flag_text state) (flag_text base) (flag_text limit).
Proof.
  intros Hstate Hbase Hlimit.
  assert (Hs : state = VUndefined \/
               exists c s, state = VString (String c s)).
  { destruct state as [| | | |s| |]; try discriminate Hstate; [left; reflexivity|].
    right. cbn [is_undefined orb] in Hstate.
    apply includes_enum in Hstate as (s' & Hin & [= ->]).
    destruct Hin as [<-|[<-|[<-|[<-|[]]]]]; eauto. }
  unfold list_prs_flags, list_prs_template.
  destruct Hs as [->|(c & s & ->)];
    destruct base as [| | | |[|? base]| |]; try discriminate Hbase;
    destruct limit as [| | |[?|?| |? ? ?]| | |]; try discriminate Hlimit;
    cbn [ToBoolean ToString String.eqb negb flag_text plain_flag app
           append_all fold_left];
    rewrite ?append_assoc, ?append_nil_r; reflexivity.
Qed.



Lemma ToBoolean_string (s : string) :
  s <> EmptyString -> ToBoolean (VString s) = true.
Proof. destruct s; [congruence | reflexivity]. Qed.

(** The piece of a truthy optional field is among the appended ones. *)
Lemma create_pr_flags_In (body base head draft : JSValue) :
  (ToBoolean body = true ->
   In (" --body " +:+ dquote +:+ ToString body +:+ dquote)
     (create_pr_flags body base head draft)) /\
  (ToBoolean base = true ->
   In (" --base " +:+ dquote +:+ ToString base +:+ dquote)
     (create_pr_flags body base head draft)) /\
  (ToBoolean head = true ->
   In (" --head " +:+ dquote +:+ ToString head +:+ dquote)
     (create_pr_flags body base head draft)).
Proof.
  unfold create_pr_flags.
  repeat split; intros ->;
    repeat (apply in_or_app;
            first [ left; apply in_eq | right ]).
Qed.

(** C2, as amended.  On validated arguments every text-valued field for
    which the builder emits a quoted flag (the title of [create_pr] and
    the body of [comment_pr] always; the body, base and head of
    [create_pr] when they are not the empty string) appears in the command
    between double quotes, character for character; and there is an input
    whose title has a double quote and shell metacharacters in it, which
    the command carries unchanged. *)
Theorem emitted_quoted_fields_verbatim :
  (forall args, isValidCreatePrArgs args = Normal true ->
     exists command,
       create_pr_command args = Normal command /\
       (exists title,
           member args "title" = VString title /\
           Occurs ("--title " +:+ dquote +:+ title +:+ dquote) command) /\
       (forall body,
           member args "body" = VString body -> body <> EmptyString ->
           Occurs (" --body " +:+ dquote +:+ body +:+ dquote) command) /\
       (forall base,
           member args "base" = VString base -> base <> EmptyString ->
           Occurs (" --base " +:+ dquote +:+ base +:+ dquote) command) /\
       (forall head,
           member args "head" = VString head -> head <> EmptyString ->
           Occurs (" --head " +:+ dquote +:+ head +:+ dquote) command)) /\
  (forall args, isValidCommentPrArgs args = Normal true ->
     exists command body,
       comment_pr_command args = Normal command /\
       member args "body" = VString body /\
       Occurs (" --body " +:+ dquote +:+ body +:+ dquote) command) /\
  (isValidCreatePrArgs (obj [("title", VString hostile_title)])
   = Normal true /\
   Occurs dquote hostile_title /\ Occurs ";" hostile_title /\
   Occurs "$" hostile_title /\
   create_pr_command (obj [("title", VString hostile_title)])
   = Normal ("pr create --title " +:+ dquote +:+ hostile_title +:+ dquote)).
Proof.
  split; [|split].
  - intros args (Hobj & Htitle & _)%create_pr_valid.
    rewrite (create_pr_command_eq _ Hobj). eexists. split; [reflexivity|].
    destruct (create_pr_flags_In (member args "body") (member args "base")
                (member args "head") (member args "draft"))
      as (Hbody & Hbase & Hhead).
    split; [|split; [|split]].
    + apply shape_is_string in Htitle as [title Htitle].
      exists title. split; [exact Htitle|]. rewrite Htitle. cbn [ToString].
      apply Occurs_append_all.
      exists "pr create ", EmptyString.
      rewrite append_nil_r. reflexivity.
    + intros body Hm Hne. rewrite Hm in Hbody |- *.
      apply Occurs_piece, Hbody, ToBoolean_string, Hne.
    + intros base Hm Hne. rewrite Hm in Hbase |- *.
      apply Occurs_piece, Hbase, ToBoolean_string, Hne.
    + intros head Hm Hne. rewrite Hm in Hhead |- *.
      apply Occurs_piece, Hhead, ToBoolean_string, Hne.
  - intros args (Hobj & _ & Hbody)%comment_pr_valid.
    rewrite (comment_pr_command_eq _ Hobj).
    apply shape_is_string in Hbody as [body Hbody].
    eexists _, body. split; [reflexivity|]. split; [exact Hbody|].
    rewrite Hbody. cbn [ToString].
    exists ("pr comment " +:+ ToString (member args "number")), EmptyString.
    rewrite append_nil_r, !append_assoc. reflexivity.
  - split; [vm_compute; reflexivity|].
    split; [exists "x", "; echo $(id) #"; reflexivity|].
    split; [exists ("x" +:+ dquote), " echo $(id) #"; reflexivity|].
    split; [exists ("x" +:+ dquote +:+ "; echo "), "(id) #"; reflexivity|].
    vm_compute. reflexivity.
Qed.

Lemma emitted_quoted_fields_verbatim_witness :
  Occurs ("--title " +:+ dquote +:+ "Add X" +:+ dquote)
    ("pr create --title " +:+ dquote +:+ "Add X" +:+ dquote +:+
     " --body " +:+ dquote +:+ "It's " +:+ dquote +:+ "done" +:+ dquote
     +:+ dquote) /\
  Occurs (" --body " +:+ dquote +:+ ("It's " +:+ dquote +:+ "done" +:+ dquote)
          +:+ dquote)
    ("pr create --title " +:+ dquote +:+ "Add X" +:+ dquote +:+
     " --body " +:+ dquote +:+ "It's " +:+ dquote +:+ "done" +:+ dquote
     +:+ dquote) /\
  Occurs (" --body " +:+ dquote +:+ "a $HOME b" +:+ dquote)
    ("pr comment 3 --body " +:+ dquote +:+ "a $HOME b" +:+ dquote).
Proof.
  destruct emitted_quoted_fields_verbatim as (Hcreate & Hcomment & _).
  destruct (Hcreate
              (obj [("title", VString "Add X");
                    ("body", VString ("It's " +:+ dquote +:+ "done"
                                      +:+ dquote))])
              ltac:(vm_compute; reflexivity))
    as (command & Hc & (title & Ht & Htitle) & Hbody & _ & _).
  vm_compute in Hc. injection Hc as <-.
  vm_compute in Ht. injection Ht as <-.
  split; [exact Htitle|].
  split.
  { apply Hbody; [vm_compute; reflexivity | discriminate]. }
  destruct (Hcomment (obj [("number", num 3); ("body", VString "a $HOME b")])
              ltac:(vm_compute; reflexivity))
    as (command & body & Hc & Hb & Hocc).
  vm_compute in Hc. injection Hc as <-.
  vm_compute in Hb. injection Hb as <-.
  exact Hocc.
Defined.

(** C2 as stated fails: a validated [create_pr] whose body is the empty
    string gets no [--body] flag, so the body does not appear between
    double quotes anywhere in the command. *)
Lemma empty_body_is_not_quoted :
  isValidCreatePrArgs (obj [("title", VString "T");
                            ("body", VString EmptyString)]) = Normal true /\
  member (obj [("title", VString "T"); ("body", VString EmptyString)]) "body"
  = VString EmptyString /\
  create_pr_command (obj [("title", VString "T");
                          ("body", VString EmptyString)])
  = Normal ("pr create --title " +:+ dquote +:+ "T" +:+ dquote) /\
  ~ Occurs (dquote +:+ EmptyString +:+ dquote)
      ("pr create --title " +:+ dquote +:+ "T" +:+ dquote).
Proof.
  split; [vm_compute; reflexivity|].
  split; [vm_compute; reflexivity|].
  split; [vm_compute; reflexivity|].
  intros H. apply Occurs_occursb in H. vm_compute in H. discriminate H.
Qed.

(** C3, as amended.  For [create_pr] and [list_prs] on validated
    arguments, each optional field appends its flag exactly once when its
    value is truthy and not at all otherwise: an absent field, an empty
    string, [false], zero and NaN append nothing. *)
Theorem optional_flags_follow_truthiness :
  (forall args, isValidCreatePrArgs args = Normal true ->
     let flags :=
       create_pr_flags (member args "body") (member args "base")
         (member args "head") (member args "draft") in
     create_pr_command args
     = Normal (append_all
                 ("pr create --title " +:+ dquote +:+
                  ToString (member args "title") +:+ dquote) flags) /\
     flag_count "--body" flags
     = (if ToBoolean (member args "body") then 1 else 0) /\
     flag_count "--base" flags
     = (if ToBoolean (member args "base") then 1 else 0) /\
     flag_count "--head" flags
     = (if ToBoolean (member args "head") then 1 else 0) /\
     flag_count "--draft" flags
     = (if ToBoolean (member args "draft") then 1 else 0)) /\
  (forall args, isValidListPrArgs args = Normal true ->
     let flags :=
       list_prs_flags (member args "state") (member args "base")
         (member args "limit") in
     list_prs_command args = Normal (append_all "pr list" flags) /\
     flag_count "--state" flags
     = (if ToBoolean (member args "state") then 1 else 0) /\
     flag_count "--base" flags
     = (if ToBoolean (member args "base") then 1 else 0) /\
     flag_count "--limit" flags
     = (if ToBoolean (member args "limit") then 1 else 0)) /\
  (ToBoolean VUndefined = false /\
   (forall s, ToBoolean (VString s) = negb (String.eqb s EmptyString)) /\
   (forall b, ToBoolean (VBoolean b) = b) /\
   (forall x, ToBoolean (VNumber x) = false <->
              (exists s, x = S754_zero s) \/ x = S754_nan)).
Proof.
  split; [|split].
  - intros args [Hobj _]%create_pr_valid flags.
    split; [apply create_pr_command_eq, Hobj|].
    apply create_pr_flag_counts.
  - intros args [Hobj _]%list_prs_valid flags.
    split; [apply list_prs_command_eq, Hobj|].
    apply list_prs_flag_counts.
  - split; [reflexivity|]. split; [reflexivity|]. split; [reflexivity|].
    intros x. split.
    + destruct x as [s|s| |s m e]; try discriminate; eauto.
    + intros [[s ->]| ->]; reflexivity.
Qed.

Lemma optional_flags_follow_truthiness_witness :
  flag_count "--body"
    (create_pr_flags (VString "text") VUndefined (VString EmptyString)
       (VBoolean true)) = 1 /\
  flag_count "--base"
    (create_pr_flags (VString "text") VUndefined (VString EmptyString)
       (VBoolean true)) = 0 /\
  flag_count "--head"
    (create_pr_flags (VString "text") VUndefined (VString EmptyString)
       (VBoolean true)) = 0 /\
  flag_count "--draft"
    (create_pr_flags (VString "text") VUndefined (VString EmptyString)
       (VBoolean true)) = 1 /\
  flag_count "--state"
    (list_prs_flags (VString "all") VUndefined (num 0)) = 1 /\
  flag_count "--limit"
    (list_prs_flags (VString "all") VUndefined (num 0)) = 0.
Proof.
  destruct optional_flags_follow_truthiness as (Hcreate & Hlist & _).
  destruct (Hcreate (obj [("title", VString "T"); ("body", VString "text");
                          ("head", VString EmptyString);
                          ("draft", VBoolean true)])
              ltac:(vm_compute; reflexivity))
    as (_ & Hbody & Hbase & Hhead & Hdraft).
  destruct (Hlist (obj [("state", VString "all"); ("limit", num 0)])
              ltac:(vm_compute; reflexivity))
    as (_ & Hstate & _ & Hlimit).
  exact (conj Hbody (conj Hbase (conj Hhead (conj Hdraft
                                                  (conj Hstate Hlimit))))).
Defined.

(** C3 as stated fails: a validated [list_prs] whose limit is supplied, as
    the number zero, gets no [--limit] flag. *)
Lemma supplied_zero_limit_has_no_flag :
  isValidListPrArgs (obj [("limit", num 0)]) = Normal true /\
  is_undefined (member (obj [("limit", num 0)]) "limit") = false /\
  has_type "number" (member (obj [("limit", num 0)]) "limit") = true /\
  list_prs_command (obj [("limit", num 0)]) = Normal "pr list" /\
  flag_count "--limit"
    (list_prs_flags (member (obj [("limit", num 0)]) "state")
       (member (obj [("limit", num 0)]) "base")
       (member (obj [("limit", num 0)]) "limit")) <> 1 /\
  occursb "--limit" "pr list" = false.
Proof.
  repeat split; try (vm_compute; reflexivity).
  vm_compute. discriminate.
Qed.

(** The piece of a truthy field of [list_prs] is among the appended
    ones. *)
Lemma list_prs_flags_In (state base limit : JSValue) :
  ToBoolean limit = true ->
  In (" --limit " +:+ ToString limit) (list_prs_flags state base limit).
Proof.
  unfold list_prs_flags. intros ->.
  do 2 (apply in_or_app; right). apply in_eq.
Qed.

Lemma enum_dashless (s : string) : In s state_enum -> dashless s = true.
Proof. intros [<-|[<-|[<-|[<-|[]]]]]; reflexivity. Qed.




(** * Further properties of the handlers *)

(** ** The course of the handler *)

(** A name is one of the four tools, with its validator and its builder,
    or the handler throws the method-not-found error at once. *)
Lemma tool_lookup (name : string) :
  (In name tools /\
   exists validate build,
     tool_validator name = Some validate /\
     tool_command name = Some build) \/
  (~ In name tools /\
   forall execSync arguments,
     CallToolRequest_handler execSync name arguments
     = {| result := Abrupt (unknown_tool name); trace := [] |}).
Proof.
  unfold tools, tool_validator, tool_command, CallToolRequest_handler.
  destruct (String.eqb_spec name "create_pr") as [->|H1];
    [left; split; [simpl; tauto | eauto]|].
  destruct (String.eqb_spec name "list_prs") as [->|H2];
    [left; split; [simpl; tauto | eauto]|].
  destruct (String.eqb_spec name "view_pr") as [->|H3];
    [left; split; [simpl; tauto | eauto]|].
  destruct (String.eqb_spec name "comment_pr") as [->|H4];
    [left; split; [simpl; tauto | eauto]|].
  right. split; [|reflexivity].
  intros [H|[H|[H|[H|[]]]]]; congruence.
Qed.

(** The validator of a tool returns a boolean. *)
Lemma tool_validator_total (name : string)
    (validate : JSValue -> Completion bool) (arguments : JSValue) :
  tool_validator name = Some validate ->
  exists b, validate arguments = Normal b.
Proof.
  unfold tool_validator.
  destruct (String.eqb name "create_pr");
    [intros [= <-]; rewrite isValidCreatePrArgs_eq; eauto|].
  destruct (String.eqb name "list_prs");
    [intros [= <-]; rewrite isValidListPrArgs_eq; eauto|].
  destruct (String.eqb name "view_pr");
    [intros [= <-]; rewrite isValidViewPrArgs_eq; eauto|].
  destruct (String.eqb name "comment_pr");
    [intros [= <-]; rewrite isValidCommentPrArgs_eq; eauto|].
  discriminate.
Qed.

(** The handler on validated arguments: the validator is called, one
    command line is run, and the outcome is that of [reply_with]. *)
Lemma handler_valid (execSync : string -> ExecOutcome) (name : string)
    (validate : JSValue -> Completion bool)
    (build : JSValue -> Completion string) (arguments : JSValue)
    (command : string) :
  tool_validator name = Some validate ->
  tool_command name = Some build ->
  validate arguments = Normal true ->
  build arguments = Normal command ->
  CallToolRequest_handler execSync name arguments
  = {| result :=
         match execSync ("gh " +:+ command) with
         | Returned stdout => Normal (text_reply stdout None)
         | Threw error =>
             if instanceof_Error error
             then Normal
                    (text_reply
                       (message
                          (new_McpError InternalError
                             ("GitHub CLI error: " +:+ error_message error)))
                       (Some true))
             else Abrupt error
         end;
       trace := [Validated name; Executed ("gh " +:+ command)] |}.
Proof.
  intros Hv Hb Hvalid Hc.
  rewrite (handler_dispatch execSync _ _ _ _ Hv Hb).
  rewrite (guarded_run_valid execSync _ _ _ _ _ Hvalid Hc).
  rewrite reply_with_eq. reflexivity.
Qed.

Lemma handler_invalid (execSync : string -> ExecOutcome) (name : string)
    (validate : JSValue -> Completion bool)
    (build : JSValue -> Completion string) (arguments : JSValue) :
  tool_validator name = Some validate ->
  tool_command name = Some build ->
  validate arguments = Normal false ->
  CallToolRequest_handler execSync name arguments
  = {| result :=
         Abrupt (ThrowMcpError
                   (new_McpError InvalidParams
                      ("Invalid " +:+ name +:+ " arguments")));
       trace := [Validated name] |}.
Proof.
  intros Hv Hb Hinvalid.
  rewrite (handler_dispatch execSync _ _ _ _ Hv Hb).
  apply guarded_run_invalid, Hinvalid.
Qed.

Lemma instanceof_Error_false (error : Thrown) :
  instanceof_Error error = false -> exists v, error = ThrowValue v.
Proof. destruct error; try discriminate. eauto. Qed.

(** ** Keys that are no index *)

(** The decimal text of a natural number begins with a digit. *)
Lemma decimal_begins_with_digit (i : nat) :
  exists c rest,
    Number.decimal (Z.of_nat i) = String c rest /\ is_digit c = true.
Proof.
  unfold Number.decimal.
  assert (H : forall d, exists c rest,
               NilZero.string_of_uint d = String c rest /\
               is_digit c = true).
  { intros d. destruct d; simpl; eauto. }
  destruct (Z.of_nat i) as [|p|p] eqn:E; [apply H | apply H | lia].
Qed.

(** A key that begins with something else than a digit is the index of no
    element. *)
Lemma index_of_key_none (c : ascii) (k : string) (n : nat) :
  is_digit c = false -> index_of_key (String c k) n = None.
Proof.
  intros Hc. unfold index_of_key.
  generalize (seq 0 n). intros l.
  induction l as [|i l IH]; [reflexivity|].
  cbn [List.find].
  destruct (decimal_begins_with_digit i) as (d & rest & -> & Hd).
  destruct (String.eqb_spec (String d rest) (String c k)) as [E|_];
    [|exact IH].
  injection E as -> _. congruence.
Qed.

(** An array has no field of a name that is neither [length] nor an
    index. *)
Lemma member_array (elems : list JSValue) (c : ascii) (k : string) :
  is_digit c = false -> String.eqb (String c k) "length" = false ->
  member (VArray elems) (String c k) = VUndefined.
Proof.
  intros Hc Hl. unfold member, Get.
  rewrite Hl, (index_of_key_none c k _ Hc). reflexivity.
Qed.

(** ** Fields of an object *)

Lemma member_insert_ne (fields : gmap string JSValue) (k k' : string)
    (v : JSValue) :
  k <> k' ->
  member (VObject (<[k:=v]> fields)) k' = member (VObject fields) k'.
Proof.
  intros Hne. unfold member, Get. rewrite lookup_insert_ne by exact Hne.
  reflexivity.
Qed.

(** ** Decimal digits *)

Lemma string_of_uint_digits (d : Decimal.uint) :
  all_digits (NilEmpty.string_of_uint d) = true.
Proof. induction d; simpl; try exact IHd; reflexivity. Qed.

Lemma decimal_digits (z : Z) :
  (0 < z)%Z ->
  all_digits (Number.decimal z) = true /\ Number.decimal z <> EmptyString.
Proof.
  intros Hz. unfold Number.decimal.
  destruct z as [|p|p]; try lia.
  cbn [Z.to_int NilZero.string_of_int].
  unfold NilZero.string_of_uint.
  destruct (Pos.to_uint p) eqn:E;
    try (split; [rewrite <- E at 1; apply string_of_uint_digits
                | simpl; discriminate]).
  split; [reflexivity | discriminate].
Qed.

(** X1.  When the arguments of a tool pass its validator and the command
    exits with status zero, the reply is the captured output, unchanged, in
    one text block without an error flag; the handler has called the
    validator once and run that one command line. *)
Theorem successful_command_is_replied_verbatim
    (execSync : string -> ExecOutcome) (name : string)
    (validate : JSValue -> Completion bool)
    (build : JSValue -> Completion string) (arguments : JSValue)
    (command stdout : string) :
  tool_validator name = Some validate ->
  tool_command name = Some build ->
  validate arguments = Normal true ->
  build arguments = Normal command ->
  execSync ("gh " +:+ command) = Returned stdout ->
  CallToolRequest_handler execSync name arguments
  = {| result := Normal (text_reply stdout None);
       trace := [Validated name; Executed ("gh " +:+ command)] |}.
Proof.
  intros Hv Hb Hvalid Hc Hout.
  rewrite (handler_valid execSync _ _ _ _ _ Hv Hb Hvalid Hc), Hout.
  reflexivity.
Qed.

Lemma successful_command_is_replied_verbatim_witness :
  CallToolRequest_handler echo_exec "comment_pr"
    (obj [("number", num 12); ("body", VString "Looks good")])
  = {| result :=
         Normal (text_reply
                   ("gh pr comment 12 --body " +:+ dquote +:+ "Looks good"
                    +:+ dquote) None);
       trace :=
         [Validated "comment_pr";
          Executed ("gh pr comment 12 --body " +:+ dquote +:+ "Looks good"
                    +:+ dquote)] |}.
Proof.
  exact (successful_command_is_replied_verbatim echo_exec "comment_pr"
           isValidCommentPrArgs comment_pr_command
           (obj [("number", num 12); ("body", VString "Looks good")])
           ("pr comment 12 --body " +:+ dquote +:+ "Looks good" +:+ dquote)
           ("gh pr comment 12 --body " +:+ dquote +:+ "Looks good"
            +:+ dquote)
           eq_refl eq_refl ltac:(vm_compute; reflexivity)
           ltac:(vm_compute; reflexivity) ltac:(vm_compute; reflexivity)).
Defined.

(** X2.  What [execSync] throws that is not an [Error] is neither wrapped
    nor turned into a reply: the handler throws that same value on. *)
Theorem non_error_throw_is_rethrown
    (execSync : string -> ExecOutcome) (name : string)
    (validate : JSValue -> Completion bool)
    (build : JSValue -> Completion string) (arguments : JSValue)
    (command : string) (error : Thrown) :
  tool_validator name = Some validate ->
  tool_command name = Some build ->
  validate arguments = Normal true ->
  build arguments = Normal command ->
  execSync ("gh " +:+ command) = Threw error ->
  instanceof_Error error = false ->
  result (CallToolRequest_handler execSync name arguments) = Abrupt error.
Proof.
  intros Hv Hb Hvalid Hc Hout Hi.
  rewrite (handler_valid execSync _ _ _ _ _ Hv Hb Hvalid Hc).
  cbn [result]. rewrite Hout, Hi. reflexivity.
Qed.

Lemma non_error_throw_is_rethrown_witness :
  result (CallToolRequest_handler
            (fun _ => Threw (ThrowValue (VString "stop"))) "view_pr"
            (obj [("number", num 3)]))
  = Abrupt (ThrowValue (VString "stop")).
Proof.
  exact (non_error_throw_is_rethrown
           (fun _ => Threw (ThrowValue (VString "stop"))) "view_pr"
           isValidViewPrArgs view_pr_command (obj [("number", num 3)])
           "pr view 3" (ThrowValue (VString "stop")) eq_refl eq_refl
           ltac:(vm_compute; reflexivity) ltac:(vm_compute; reflexivity)
           eq_refl eq_refl).
Defined.

(** X3.  Whatever the external process does, the handler runs no command
    when the validator refuses the arguments, and exactly one, the built
    command after [gh ], when it accepts them. *)
Theorem one_command_only_after_validation
    (execSync : string -> ExecOutcome) (name : string)
    (validate : JSValue -> Completion bool)
    (build : JSValue -> Completion string) (arguments : JSValue) :
  tool_validator name = Some validate ->
  tool_command name = Some build ->
  (validate arguments = Normal false /\
   trace (CallToolRequest_handler execSync name arguments)
   = [Validated name]) \/
  (validate arguments = Normal true /\
   exists command,
     build arguments = Normal command /\
     trace (CallToolRequest_handler execSync name arguments)
     = [Validated name; Executed ("gh " +:+ command)]).
Proof.
  intros Hv Hb.
  destruct (tool_validator_total name validate arguments Hv) as [[|] Hvalid].
  - right. split; [exact Hvalid|].
    destruct (validated_builds _ _ _ _ Hv Hb Hvalid) as [command Hc].
    exists command. split; [exact Hc|].
    rewrite (handler_valid execSync _ _ _ _ _ Hv Hb Hvalid Hc). reflexivity.
  - left. split; [exact Hvalid|].
    rewrite (handler_invalid execSync _ _ _ _ Hv Hb Hvalid). reflexivity.
Qed.

Lemma one_command_only_after_validation_witness :
  trace (CallToolRequest_handler failing_exec "create_pr"
           (obj [("body", VString "no title")]))
  = [Validated "create_pr"] /\
  trace (CallToolRequest_handler failing_exec "create_pr"
           (obj [("title", VString "T")]))
  = [Validated "create_pr";
     Executed ("gh pr create --title " +:+ dquote +:+ "T" +:+ dquote)].
Proof.
  split.
  - destruct (one_command_only_after_validation failing_exec "create_pr"
                isValidCreatePrArgs create_pr_command
                (obj [("body", VString "no title")]) eq_refl eq_refl)
      as [[_ Ht]|[Hvalid _]]; [exact Ht|].
    vm_compute in Hvalid. discriminate Hvalid.
  - destruct (one_command_only_after_validation failing_exec "create_pr"
                isValidCreatePrArgs create_pr_command
                (obj [("title", VString "T")]) eq_refl eq_refl)
      as [[Hinvalid _]|[_ (command & Hc & Ht)]].
    + vm_compute in Hinvalid. discriminate Hinvalid.
    + vm_compute in Hc. injection Hc as <-. exact Ht.
Defined.

(** X4.  Every call of the handler ends in one of five ways, whatever the
    name, the arguments and the external process: the output as an
    unflagged reply; the message of an [Error] of the process, after
    [GitHub CLI error: ], as a flagged reply; the invalid-parameters error
    of a tool; the method-not-found error of a name that is no tool; or a
    value the process threw that is not an [Error].  It never throws a
    [TypeError] of its own and a reply always has one text block. *)
Theorem handler_outcomes
    (execSync : string -> ExecOutcome) (name : string)
    (arguments : JSValue) :
  let r := result (CallToolRequest_handler execSync name arguments) in
  (exists command stdout,
      execSync ("gh " +:+ command) = Returned stdout /\
      r = Normal (text_reply stdout None)) \/
  (exists command error,
      execSync ("gh " +:+ command) = Threw error /\
      instanceof_Error error = true /\
      r = Normal
            (text_reply
               (message
                  (new_McpError InternalError
                     ("GitHub CLI error: " +:+ error_message error)))
               (Some true))) \/
  (In name tools /\
   r = Abrupt (ThrowMcpError
                 (new_McpError InvalidParams
                    ("Invalid " +:+ name +:+ " arguments")))) \/
  (~ In name tools /\ r = Abrupt (unknown_tool name)) \/
  (exists command v,
      execSync ("gh " +:+ command) = Threw (ThrowValue v) /\
      r = Abrupt (ThrowValue v)).
Proof.
  intros r. subst r.
  destruct (tool_lookup name)
    as [[Hin (validate & build & Hv & Hb)]|[Hout Hunknown]].
  - destruct (tool_validator_total name validate arguments Hv)
      as [[|] Hvalid].
    + destruct (validated_builds _ _ _ _ Hv Hb Hvalid) as [command Hc].
      rewrite (handler_valid execSync _ _ _ _ _ Hv Hb Hvalid Hc).
      cbn [result].
      destruct (execSync ("gh " +:+ command)) as [stdout|error] eqn:Hexec.
      * left. eauto.
      * destruct (instanceof_Error error) eqn:Hi.
        -- right; left. eauto.
        -- apply instanceof_Error_false in Hi as [v ->].
           right; right; right; right. eauto.
    + rewrite (handler_invalid execSync _ _ _ _ Hv Hb Hvalid).
      right; right; left. split; [exact Hin | reflexivity].
  - rewrite Hunknown. right; right; right; left.
    split; [exact Hout | reflexivity].
Qed.

(** X5.  The catalogue and the dispatch agree: the names the catalogue
    lists, each once, are exactly the names for which the handler does not
    throw the method-not-found error. *)
Theorem listed_tools_are_the_dispatched_ones
    (execSync : string -> ExecOutcome) (name : string)
    (arguments : JSValue) :
  NoDup (List.map Tool.name ListToolsRequest_handler) /\
  (In name (List.map Tool.name ListToolsRequest_handler) <->
   result (CallToolRequest_handler execSync name arguments)
   <> Abrupt (unknown_tool name)).
Proof.
  split.
  { repeat (apply NoDup_cons; split;
            [intros H%list_elem_of_In; simpl in H;
             repeat (destruct H as [H|H]; [discriminate H|]); destruct H|]).
    apply NoDup_nil. exact I. }
  change (List.map Tool.name ListToolsRequest_handler) with tools.
  destruct (tool_lookup name)
    as [[Hin (validate & build & Hv & Hb)]|[Hout Hunknown]].
  - split; [|intros _; exact Hin]. intros _.
    destruct (tool_validator_total name validate arguments Hv)
      as [[|] Hvalid].
    + destruct (validated_builds _ _ _ _ Hv Hb Hvalid) as [command Hc].
      rewrite (handler_valid execSync _ _ _ _ _ Hv Hb Hvalid Hc).
      cbn [result].
      destruct (execSync ("gh " +:+ command)) as [stdout|error];
        [discriminate|].
      destruct (instanceof_Error error) eqn:Hi; [discriminate|].
      apply instanceof_Error_false in Hi as [v ->]. discriminate.
    + rewrite (handler_invalid execSync _ _ _ _ Hv Hb Hvalid).
      cbn [result]. unfold unknown_tool. intros [= H _]. 
  - rewrite Hunknown. cbn [result]. split; [intros H; destruct (Hout H)|].
    intros H. destruct H. reflexivity.
Qed.

(** Case analysis on the fields a validator reads: a value of another type
    than the declared one settles both sides. *)
Ltac by_fields args :=
  repeat match goal with
         | |- context [member args ?k] =>
             let v := fresh "v" in
             generalize (member args k); intros v;
             destruct v; try reflexivity;
             try match goal with
                 | |- context [includes ?l (VString ?s)] =>
                     destruct (includes l (VString s)); try reflexivity
                 | |- context [positive_integer (VNumber ?x)] =>
                     destruct (positive_integer (VNumber x)); try reflexivity
                 end
         end.

(** X6.  The validator of [create_pr] accepts exactly the values that
    conform to the input schema the catalogue publishes for it; so does the
    validator of [list_prs] on every value that is not an array. *)
Theorem validators_agree_with_schemas (args : JSValue)
    (create list : InputSchema.t) :
  schema_of "create_pr" = Some create ->
  schema_of "list_prs" = Some list ->
  isValidCreatePrArgs args = Normal (conforms create args) /\
  (json_type args <> "array" ->
   isValidListPrArgs args = Normal (conforms list args)).
Proof.
  intros [= <-] [= <-].
  rewrite isValidCreatePrArgs_eq, isValidListPrArgs_eq.
  unfold create_pr_shape, list_prs_shape, required, optional, has_type,
    state_enum, conforms, property_ok, property.
  destruct args as [| | | | |fields|elems];
    try (split; [reflexivity | intros _; reflexivity]).
  - split; [|intros _]; f_equal;
      cbn -[member String.eqb includes];
      by_fields (VObject fields).
  - split; [|intros H; destruct H; reflexivity].
    rewrite (member_array elems "t" "itle" eq_refl eq_refl). reflexivity.
Qed.

Lemma validators_agree_with_schemas_witness :
  exists create list,
    isValidCreatePrArgs (obj [("title", VString "T"); ("draft", VNull)])
    = Normal (conforms create
                (obj [("title", VString "T"); ("draft", VNull)])) /\
    isValidListPrArgs (obj [("state", VString "merged")])
    = Normal (conforms list (obj [("state", VString "merged")])).
Proof.
  eexists _, _.
  split.
  - exact (proj1 (validators_agree_with_schemas
                    (obj [("title", VString "T"); ("draft", VNull)])
                    _ _ eq_refl eq_refl)).
  - refine (proj2 (validators_agree_with_schemas
                     (obj [("state", VString "merged")])
                     _ _ eq_refl eq_refl) _).
    discriminate.
Defined.

(** X7.  The validators of [view_pr] and [comment_pr] are stricter than
    their published schemas, by one condition: they accept exactly the
    values that conform to the schema and whose [number] is a positive
    integer. *)
Theorem number_validators_refine_schemas (args : JSValue)
    (view comment : InputSchema.t) :
  schema_of "view_pr" = Some view ->
  schema_of "comment_pr" = Some comment ->
  isValidViewPrArgs args
  = Normal (conforms view args && positive_integer (member args "number")) /\
  isValidCommentPrArgs args
  = Normal (conforms comment args &&
            positive_integer (member args "number")).
Proof.
  intros [= <-] [= <-].
  rewrite isValidViewPrArgs_eq, isValidCommentPrArgs_eq.
  unfold view_pr_shape, comment_pr_shape, required, has_type, conforms,
    property_ok, property.
  destruct args as [| | | | |fields|elems]; try (split; reflexivity).
  - split; f_equal; cbn -[member String.eqb positive_integer];
      by_fields (VObject fields).
  - rewrite (member_array elems "n" "umber" eq_refl eq_refl).
    split; reflexivity.
Qed.

Lemma number_validators_refine_schemas_witness :
  isValidViewPrArgs (obj [("number", num 0)]) = Normal false /\
  isValidCommentPrArgs (obj [("number", num 4); ("body", VString "ok")])
  = Normal true.
Proof.
  split.
  - rewrite (proj1 (number_validators_refine_schemas
                      (obj [("number", num 0)]) _ _ eq_refl eq_refl)).
    vm_compute. reflexivity.
  - rewrite (proj2 (number_validators_refine_schemas
                      (obj [("number", num 4); ("body", VString "ok")])
                      _ _ eq_refl eq_refl)).
    vm_compute. reflexivity.
Defined.

(** X8.  A field the case of a tool does not read changes nothing: with
    such a field added to an object, or its value replaced, the validator
    gives the same answer, the builder the same command and the handler
    the same reply. *)
Theorem unread_fields_are_ignored
    (execSync : string -> ExecOutcome) (name : string)
    (validate : JSValue -> Completion bool)
    (build : JSValue -> Completion string)
    (fields : gmap string JSValue) (k : string) (v : JSValue) :
  tool_validator name = Some validate ->
  tool_command name = Some build ->
  ~ In k (tool_fields name) ->
  validate (VObject (<[k:=v]> fields)) = validate (VObject fields) /\
  build (VObject (<[k:=v]> fields)) = build (VObject fields) /\
  CallToolRequest_handler execSync name (VObject (<[k:=v]> fields))
  = CallToolRequest_handler execSync name (VObject fields).
Proof.
  intros Hv Hb Hk.
  assert (Hm : forall k', In k' (tool_fields name) ->
                 member (VObject (<[k:=v]> fields)) k'
                 = member (VObject fields) k').
  { intros k' Hk'. apply member_insert_ne. intros ->. exact (Hk Hk'). }
  assert (H : validate (VObject (<[k:=v]> fields)) = validate (VObject fields)
              /\ build (VObject (<[k:=v]> fields))
                 = build (VObject fields)).
  { revert Hv Hb Hm. unfold tool_validator, tool_command, tool_fields.
    destruct (String.eqb name "create_pr").
    { intros [= <-] [= <-] Hm.
      rewrite !isValidCreatePrArgs_eq, !create_pr_command_eq by reflexivity.
      unfold create_pr_shape, required, optional.
      rewrite !Hm by (simpl; tauto). split; reflexivity. }
    destruct (String.eqb name "list_prs").
    { intros [= <-] [= <-] Hm.
      rewrite !isValidListPrArgs_eq, !list_prs_command_eq by reflexivity.
      unfold list_prs_shape, optional.
      rewrite !Hm by (simpl; tauto). split; reflexivity. }
    destruct (String.eqb name "view_pr").
    { intros [= <-] [= <-] Hm.
      rewrite !isValidViewPrArgs_eq, !view_pr_command_eq by reflexivity.
      unfold view_pr_shape.
      rewrite !Hm by (simpl; tauto). split; reflexivity. }
    destruct (String.eqb name "comment_pr").
    { intros [= <-] [= <-] Hm.
      rewrite !isValidCommentPrArgs_eq, !comment_pr_command_eq
        by reflexivity.
      unfold comment_pr_shape, required.
      rewrite !Hm by (simpl; tauto). split; reflexivity. }
    discriminate. }
  destruct H as [Hvalidate Hbuild].
  split; [exact Hvalidate|]. split; [exact Hbuild|].
  rewrite !(handler_dispatch execSync _ _ _ _ Hv Hb).
  unfold guarded_run. rewrite Hvalidate, Hbuild. reflexivity.
Qed.

Lemma unread_fields_are_ignored_witness :
  CallToolRequest_handler echo_exec "view_pr"
    (VObject (<["verbose" := VBoolean true]>
                (<["number" := num 5]> ∅)))
  = CallToolRequest_handler echo_exec "view_pr"
      (VObject (<["number" := num 5]> ∅)).
Proof.
  refine (proj2 (proj2 (unread_fields_are_ignored echo_exec "view_pr"
                          isValidViewPrArgs view_pr_command
                          (<["number" := num 5]> ∅) "verbose"
                          (VBoolean true) eq_refl eq_refl _))).
  simpl. intros [H|[]]. discriminate H.
Defined.

(** X9.  The command does not tell the arguments apart: a title that
    closes its own quotes and goes on with a body flag gives the very
    command of the shorter title with that body, both argument sets being
    validated. *)
Theorem title_can_forge_the_body_flag (title body : string) :
  body <> EmptyString ->
  let forged :=
    obj [("title",
          VString (title +:+ dquote +:+ " --body " +:+ dquote +:+ body))] in
  let honest := obj [("title", VString title); ("body", VString body)] in
  isValidCreatePrArgs forged = Normal true /\
  isValidCreatePrArgs honest = Normal true /\
  create_pr_command forged = create_pr_command honest /\
  create_pr_command honest
  = Normal ("pr create --title " +:+ dquote +:+ title +:+ dquote +:+
            " --body " +:+ dquote +:+ body +:+ dquote).
Proof.
  intros Hbody forged honest.
  assert (Hf : forall k,
             member forged k
             = if String.eqb k "title"
               then VString (title +:+ dquote +:+ " --body " +:+ dquote
                             +:+ body)
               else VUndefined).
  { intros k. unfold member, Get, forged, obj. cbn [list_to_map foldr].
    destruct (String.eqb_spec k "title") as [->|Hne].
    - rewrite lookup_insert_eq. reflexivity.
    - rewrite lookup_insert_ne, lookup_empty by (intros E; auto). reflexivity. }
  assert (Hh : forall k,
             member honest k
             = if String.eqb k "title" then VString title
               else if String.eqb k "body" then VString body
               else VUndefined).
  { intros k. unfold member, Get, honest, obj. cbn [list_to_map foldr].
    destruct (String.eqb_spec k "title") as [->|Hne].
    - rewrite lookup_insert_eq. reflexivity.
    - rewrite lookup_insert_ne by (intros E; auto).
      destruct (String.eqb_spec k "body") as [->|Hne'].
      + rewrite lookup_insert_eq. reflexivity.
      + rewrite lookup_insert_ne, lookup_empty by (intros E; auto).
        reflexivity. }
  rewrite !isValidCreatePrArgs_eq, !create_pr_command_eq by reflexivity.
  unfold create_pr_shape, required, optional, create_pr_flags.
  rewrite !Hf, !Hh. cbn [String.eqb Ascii.eqb Bool.eqb].
  cbn [ToBoolean ToString].
  assert (Hb : negb (String.eqb body EmptyString) = true)
    by (destruct body; [congruence | reflexivity]).
  rewrite Hb.
  split; [reflexivity|]. split; [reflexivity|].
  split; f_equal; cbn [app append_all fold_left];
    rewrite !append_assoc; reflexivity.
Qed.

Lemma title_can_forge_the_body_flag_witness :
  create_pr_command
    (obj [("title",
           VString ("Fix" +:+ dquote +:+ " --body " +:+ dquote +:+ "x"))])
  = create_pr_command (obj [("title", VString "Fix"); ("body", VString "x")]).
Proof.
  refine (proj1 (proj2 (proj2 (title_can_forge_the_body_flag "Fix" "x" _)))).
  discriminate.
Defined.

(** X10.  For the [state] of [list_prs] presence is enough: a validated
    state that is present is one of the four strings, and the command is
    [pr list --state <state>] followed by what the command has without the
    state.  For the [draft] of [create_pr] the value decides: the command
    is that of the arguments without [draft], with [--draft] at its end
    exactly when [draft] is [true]. *)
Theorem state_and_draft_flags :
  (forall fields,
     isValidListPrArgs (VObject fields) = Normal true ->
     is_undefined (member (VObject fields) "state") = false ->
     exists s rest,
       In s state_enum /\ member (VObject fields) "state" = VString s /\
       list_prs_command (VObject (delete "state" fields))
       = Normal ("pr list" +:+ rest) /\
       list_prs_command (VObject fields)
       = Normal ("pr list --state " +:+ s +:+ rest)) /\
  (forall fields,
     isValidCreatePrArgs (VObject fields) = Normal true ->
     exists command,
       create_pr_command (VObject (delete "draft" fields)) = Normal command /\
       create_pr_command (VObject fields)
       = Normal (match member (VObject fields) "draft" with
                 | VBoolean true => command +:+ " --draft"
                 | _ => command
                 end)).
Proof.
  split.
  - intros fields (_ & Hstate & _)%list_prs_valid Hpresent.
    rewrite Hpresent in Hstate.
    apply includes_enum in Hstate as (s & Hs & Heq).
    assert (Ht : ToBoolean (VString s) = true).
    { destruct Hs as [<-|[<-|[<-|[<-|[]]]]]; reflexivity. }
    exists s.
    exists (append_all EmptyString
              (list_prs_flags VUndefined (member (VObject fields) "base")
                 (member (VObject fields) "limit"))).
    split; [exact Hs|]. split; [exact Heq|].
    rewrite !list_prs_command_eq by reflexivity.
    rewrite member_delete_eq, !member_delete_ne by discriminate.
    rewrite Heq. split.
    + rewrite <- append_all_prefix. reflexivity.
    + assert (Hflags :
               list_prs_flags (VString s) (member (VObject fields) "base")
                 (member (VObject fields) "limit")
               = (" --state " +:+ s)
                 :: list_prs_flags VUndefined (member (VObject fields) "base")
                      (member (VObject fields) "limit")).
      { unfold list_prs_flags. rewrite Ht. reflexivity. }
      rewrite Hflags.
      change (append_all "pr list" ((" --state " +:+ s) :: ?l))
        with (append_all ("pr list --state " +:+ s) l).
      rewrite <- (append_nil_r ("pr list --state " +:+ s)) at 1.
      rewrite append_all_prefix. reflexivity.
  - intros fields (_ & _ & _ & _ & _ & Hdraft)%create_pr_valid.
    rewrite !create_pr_command_eq by reflexivity.
    rewrite member_delete_eq, !member_delete_ne by discriminate.
    eexists. split; [reflexivity|]. f_equal.
    assert (Hflags : forall body base head draft,
               create_pr_flags body base head draft
               = create_pr_flags body base head VUndefined ++
                 (if ToBoolean draft then [" --draft"] else [])).
    { intros body base head draft. unfold create_pr_flags.
      cbn [ToBoolean]. rewrite app_nil_r, <- !app_assoc. reflexivity. }
    rewrite Hflags, append_all_app.
    unfold optional, has_type in Hdraft.
    destruct (member (VObject fields) "draft") as [| |[|]| | | |];
      try discriminate Hdraft; reflexivity.
Qed.

Lemma state_and_draft_flags_witness :
  list_prs_command (obj [("state", VString "closed"); ("limit", num 5)])
  = Normal "pr list --state closed --limit 5" /\
  create_pr_command (obj [("title", VString "T"); ("draft", VBoolean true)])
  = Normal ("pr create --title " +:+ dquote +:+ "T" +:+ dquote +:+
            " --draft").
Proof.
  destruct state_and_draft_flags as [Hstate Hdraft].
  split.
  - assert (Hv : isValidListPrArgs
                   (obj [("state", VString "closed"); ("limit", num 5)])
                 = Normal true) by (vm_compute; reflexivity).
    assert (Hp : is_undefined
                   (member (obj [("state", VString "closed");
                                 ("limit", num 5)]) "state") = false)
      by (vm_compute; reflexivity).
    unfold obj in Hv, Hp |- *.
    destruct (Hstate _ Hv Hp) as (s & rest & _ & Hs & Hrest & Hc).
    rewrite Hc.
    vm_compute in Hs. injection Hs as <-.
    vm_compute in Hrest. injection Hrest as <-.
    vm_compute. reflexivity.
  - assert (Hv : isValidCreatePrArgs
                   (obj [("title", VString "T"); ("draft", VBoolean true)])
                 = Normal true) by (vm_compute; reflexivity).
    unfold obj in Hv |- *.
    destruct (Hdraft _ Hv) as (command & Hcommand & Hc).
    rewrite Hc.
    vm_compute in Hcommand. injection Hcommand as <-.
    vm_compute. reflexivity.
Defined.

(** X11.  The validators test [typeof args === 'object'], which an array
    passes, and then read named fields, of which an array has none: every
    array, whatever it holds, is accepted by the validator of [list_prs]
    and gives the command [pr list], and is refused by the three
    validators that require a field. *)
Theorem arrays_pass_only_list_prs (elems : list JSValue) :
  isValidListPrArgs (VArray elems) = Normal true /\
  list_prs_command (VArray elems) = Normal "pr list" /\
  isValidCreatePrArgs (VArray elems) = Normal false /\
  isValidViewPrArgs (VArray elems) = Normal false /\
  isValidCommentPrArgs (VArray elems) = Normal false.
Proof.
  rewrite isValidListPrArgs_eq, isValidCreatePrArgs_eq, isValidViewPrArgs_eq,
    isValidCommentPrArgs_eq, list_prs_command_eq by reflexivity.
  unfold list_prs_shape, create_pr_shape, view_pr_shape, comment_pr_shape,
    required, optional.
  rewrite (member_array elems "s" "tate" eq_refl eq_refl),
    (member_array elems "b" "ase" eq_refl eq_refl),
    (member_array elems "l" "imit" eq_refl eq_refl),
    (member_array elems "t" "itle" eq_refl eq_refl),
    (member_array elems "n" "umber" eq_refl eq_refl).
  repeat split; reflexivity.
Qed.

(** X12.  A validated pull request number below [2 ^ 53] reaches the
    command as a non-empty run of decimal digits, in [view_pr] and in
    [comment_pr]: unlike the text fields, it cannot carry a quote, a space
    or a dash. *)
Theorem validated_number_is_digits (args : JSValue) (x : spec_float)
    (z : Z) :
  member args "number" = VNumber x ->
  Number.integer_value x = Some z -> (z < 2 ^ 53)%Z ->
  (isValidViewPrArgs args = Normal true ->
   exists digits,
     all_digits digits = true /\ digits <> EmptyString /\
     view_pr_command args = Normal ("pr view " +:+ digits)) /\
  (isValidCommentPrArgs args = Normal true ->
   exists digits body,
     all_digits digits = true /\ digits <> EmptyString /\
     member args "body" = VString body /\
     comment_pr_command args
     = Normal ("pr comment " +:+ digits +:+ " --body " +:+ dquote +:+
               body +:+ dquote)).
Proof.
  intros Hx Hz Hlt.
  assert (H : positive_integer (member args "number") = true ->
              all_digits (Number.decimal z) = true /\
              Number.decimal z <> EmptyString /\
              ToString (member args "number") = Number.decimal z).
  { intros Hpos.
    apply NumberFacts.positive_integer_iff in Hpos
      as (x' & z' & Hx' & Hz' & Hpos).
    rewrite Hx in Hx'. injection Hx' as <-.
    rewrite Hz in Hz'. injection Hz' as <-.
    destruct (decimal_digits z Hpos) as [Hd Hne].
    split; [exact Hd|]. split; [exact Hne|].
    rewrite Hx. cbn [ToString].
    apply NumberFacts.toString_integer; [exact Hz | lia]. }
  split.
  - intros [Hobj Hpos]%view_pr_valid.
    destruct (H Hpos) as (Hd & Hne & Hs).
    exists (Number.decimal z). split; [exact Hd|]. split; [exact Hne|].
    rewrite (view_pr_command_eq _ Hobj), Hs. reflexivity.
  - intros (Hobj & Hpos & Hbody)%comment_pr_valid.
    destruct (H Hpos) as (Hd & Hne & Hs).
    apply shape_is_string in Hbody as [body Hbody].
    exists (Number.decimal z), body.
    split; [exact Hd|]. split; [exact Hne|]. split; [exact Hbody|].
    rewrite (comment_pr_command_eq _ Hobj), Hs, Hbody. reflexivity.
Qed.

Lemma validated_number_is_digits_witness :
  (exists digits,
      all_digits digits = true /\ digits <> EmptyString /\
      view_pr_command (obj [("number", num 4711)])
      = Normal ("pr view " +:+ digits)) /\
  (exists digits body,
      all_digits digits = true /\ digits <> EmptyString /\
      member (obj [("number", num 4711); ("body", VString "ok")]) "body"
      = VString body /\
      comment_pr_command (obj [("number", num 4711); ("body", VString "ok")])
      = Normal ("pr comment " +:+ digits +:+ " --body " +:+ dquote +:+
                body +:+ dquote)).
Proof.
  split.
  - refine (proj1 (validated_number_is_digits (obj [("number", num 4711)])
                     (Number.of_Z 4711) 4711%Z _ _ _) _);
      vm_compute; reflexivity.
  - refine (proj2 (validated_number_is_digits
                     (obj [("number", num 4711); ("body", VString "ok")])
                     (Number.of_Z 4711) 4711%Z _ _ _) _);
      vm_compute; reflexivity.
Defined.

(** X13.  The validator of [list_prs] puts no bound on [limit]: every
    number is accepted, negative, fractional or infinite, and is passed on
    as it prints (in its shortest digits, the even ones of two equally
    close); only zero and NaN, which are falsy, leave the flag out. *)
Theorem list_prs_limit_is_unbounded (x : spec_float) :
  isValidListPrArgs (obj [("limit", VNumber x)]) = Normal true /\
  list_prs_command (obj [("limit", VNumber x)])
  = Normal (match x with
            | S754_zero _ | S754_nan => "pr list"
            | _ => "pr list --limit " +:+ Number.toString x
            end).
Proof.
  assert (Hm : forall k,
             member (obj [("limit", VNumber x)]) k
             = if String.eqb k "limit" then VNumber x else VUndefined).
  { intros k. unfold member, Get, obj. cbn [list_to_map foldr].
    destruct (String.eqb_spec k "limit") as [->|Hne].
    - rewrite lookup_insert_eq. reflexivity.
    - rewrite lookup_insert_ne, lookup_empty by (intros E; auto).
      reflexivity. }
  rewrite isValidListPrArgs_eq, list_prs_command_eq by reflexivity.
  unfold list_prs_shape, optional, list_prs_flags.
  rewrite !Hm. split; [reflexivity|].
  destruct x; reflexivity.
Qed.
